(** * Sensor dashboards: the data shaping of [app_metrics.py] and
      [app_corruption.py]

    Both applications read three tables of one SQLite file, inner-join them on
    the [id] column, parse the [time] column and reshape the rows into a
    figure.  The pandas frames are lists of rows, a boolean mask is a [bool]
    function under [List.filter], a column that can hold NaN is an [option],
    and a call that can raise returns a [Result].  Measured values and
    percentages are float64 in the program; here they are exact rationals
    ([Q]), so rounding is outside the model.  A [time] cell is taken by what
    [pd.to_datetime] makes of it, an instant or an error; cells without a
    time (NaT) and the limits of the int64 nanosecond range are outside the
    model, so every row of a frame has a time.  The [print] calls of the
    loaders are left out. *)

From Stdlib Require Import ZArith QArith Qround Lqa String Ascii List Lia ZifyNat
  DecimalString Permutation Sorted.
From stdpp Require Import base list.
Import ListNotations.

Open Scope Z_scope.

(** ** Python values and exceptions *)
Module Py.

Inductive Error : Type :=
| DatabaseError (table : string)   (* read_sql on a table that does not exist *)
| ParserError (text : string)      (* to_datetime on text that is no date *)
| ValueError (msg : string).       (* rolling with min_periods > window *)

Inductive Result (A : Type) : Type :=
| Return (a : A)
| Raise (e : Error).
Arguments Return {A} a.
Arguments Raise {A} e.

Definition bind {A B : Type} (c : Result A) (k : A -> Result B) : Result B :=
  match c with
  | Return a => k a
  | Raise e => Raise e
  end.

Fixpoint for_each {A B : Type} (f : A -> Result B) (l : list A) : Result (list B) :=
  match l with
  | [] => Return []
  | a :: l' =>
      bind (f a) (fun b => bind (for_each f l') (fun bs => Return (b :: bs)))
  end.

(** A number as a callback receives it from the browser: JSON gives an
    [int] for a whole number and a [float] otherwise. *)
Inductive Num : Type :=
| PyInt (z : Z)
| PyFloat (q : Q).

Definition value (n : Num) : Q :=
  match n with
  | PyInt z => inject_Z z
  | PyFloat q => q
  end.

(** [n + 0.5]: always a float. *)
Definition add_half (n : Num) : Num := PyFloat (value n + (1 # 2)).

(** [str] of an [int]. *)
Definition str_int (z : Z) : string := NilZero.string_of_int (Z.to_int z).

(** [s.replace("_", " ")] *)
Fixpoint replace_underscore (s : string) : string :=
  match s with
  | EmptyString => EmptyString
  | String c s' =>
      String (if Ascii.eqb c "_" then " "%char else c) (replace_underscore s')
  end.

Definition is_lower (c : ascii) : bool :=
  let n := nat_of_ascii c in (97 <=? n)%nat && (n <=? 122)%nat.
Definition is_upper (c : ascii) : bool :=
  let n := nat_of_ascii c in (65 <=? n)%nat && (n <=? 90)%nat.
Definition to_upper (c : ascii) : ascii :=
  if is_lower c then ascii_of_nat (nat_of_ascii c - 32) else c.
Definition to_lower (c : ascii) : ascii :=
  if is_upper c then ascii_of_nat (nat_of_ascii c + 32) else c.

(** [s.title()] on ASCII text: a letter that follows a letter is lowered,
    any other letter is raised. *)
Fixpoint title_from (after_letter : bool) (s : string) : string :=
  match s with
  | EmptyString => EmptyString
  | String c s' =>
      let letter := is_lower c || is_upper c in
      String (if after_letter then to_lower c else to_upper c) (title_from letter s')
  end.
Definition title_case (s : string) : string := title_from false s.

(** [if n_clicks:] on a value that is [None] or an [int]. *)
Definition truthy (n : option Z) : bool :=
  match n with
  | Some k => negb (k =? 0)
  | None => false
  end.

End Py.

Notation "'try' x <- c ; k" := (Py.bind c (fun x => k))
  (at level 10, x name, c at level 100, k at level 200).
Notation "'try' ' p <- c ; k" := (Py.bind c (fun x => let 'p := x in k))
  (at level 10, p pattern, c at level 100, k at level 200).

(** ** Timestamps and the calendar

    A pandas timestamp is a count of nanoseconds since 1970-01-01T00:00.  Its
    [.dt.date] is the day it falls on, kept as the number of days since
    1970-01-01, which orders dates as [datetime.date] does.  The year and the
    ISO week follow CPython's [datetime]: [_ord2ymd], [_isoweek1monday] and
    [isocalendar] on proleptic Gregorian ordinals. *)
Module Calendar.

Definition Timestamp : Type := Z.

Definition NS_PER_DAY : Z := 86400000000000.

Definition dt_date (t : Timestamp) : Z := t / NS_PER_DAY.

(** Ordinal of a day: 0001-01-01 is day 1, 1970-01-01 is day 719163. *)
Definition toordinal (day : Z) : Z := day + 719163.

Definition days_before_year (year : Z) : Z :=
  let y := year - 1 in y * 365 + y / 4 - y / 100 + y / 400.

Definition ord2year (n : Z) : Z :=
  let n := n - 1 in
  let n400 := n / 146097 in
  let n := n mod 146097 in
  let n100 := n / 36524 in
  let n := n mod 36524 in
  let n4 := n / 1461 in
  let n := n mod 1461 in
  let n1 := n / 365 in
  let year := n400 * 400 + 1 + n100 * 100 + n4 * 4 + n1 in
  if (n1 =? 4) || (n100 =? 4) then year - 1 else year.

Definition isoweek1monday (year : Z) : Z :=
  let firstday := days_before_year year + 1 in
  let firstweekday := (firstday + 6) mod 7 in
  let week1monday := firstday - firstweekday in
  if 3 <? firstweekday then week1monday + 7 else week1monday.

Definition isocalendar_week (today : Z) : Z :=
  let year := ord2year today in
  let week := (today - isoweek1monday year) / 7 in
  if week <? 0 then (today - isoweek1monday (year - 1)) / 7 + 1
  else if (52 <=? week) && (isoweek1monday (year + 1) <=? today) then 1
  else week + 1.

(** [.dt.year] *)
Definition dt_year (t : Timestamp) : Z := ord2year (toordinal (dt_date t)).

(** [.dt.isocalendar().week] *)
Definition dt_week (t : Timestamp) : Z := isocalendar_week (toordinal (dt_date t)).

(** Midnight of a date given as year, month (1..12) and day, for writing
    timestamps down; [days_before_month] is CPython's table. *)
Definition is_leap (year : Z) : bool :=
  (year mod 4 =? 0) && (negb (year mod 100 =? 0) || (year mod 400 =? 0)).

Definition days_before_month (year month : Z) : Z :=
  nth (Z.to_nat month) [0; 0; 31; 59; 90; 120; 151; 181; 212; 243; 273; 304; 334] 0
  + (if (2 <? month) && is_leap year then 1 else 0).

Definition ymd2ord (year month day : Z) : Z :=
  days_before_year year + days_before_month year month + day.

Definition at_time (year month day hour minute : Z) : Timestamp :=
  (ymd2ord year month day - 719163) * NS_PER_DAY
  + (hour * 60 + minute) * 60000000000.

End Calendar.

(** ** Frames shared by the two applications *)
Module Frame.
Import Py Calendar.

Inductive Channel : Type := ch1 | ch2 | ch3.
Inductive Sensor : Type := s1 | s2 | s3 | s4 | s5 | s6.

Definition channel_name (ch : Channel) : string :=
  match ch with ch1 => "ch1" | ch2 => "ch2" | ch3 => "ch3" end.

Definition sensor_name (s : Sensor) : string :=
  match s with
  | s1 => "s1" | s2 => "s2" | s3 => "s3" | s4 => "s4" | s5 => "s5" | s6 => "s6"
  end.

(** The eighteen value columns, [f'{ch}{s}']. *)
Definition column_name (ch : Channel) (s : Sensor) : string :=
  (channel_name ch ++ sensor_name s)%string.

(** A cell of a [time] column that holds the text of a time, by what
    [pd.to_datetime] makes of it in its column: an instant, or an error (as
    for a text that is no date).  A cell without a time, NULL or the empty
    text, which pandas turns into NaT, has no counterpart here. *)
Inductive TimeText : Type :=
| Parses (ns : Timestamp)
| Unparseable (text : string).

(** A row of [main_data].  The value columns the callbacks read under
    their plain names ([ch1s1], ...) come from the joined table, so
    [main_data] contributes [id] and [time] only. *)
Record SampleRow : Type := { sample_id : Z; sample_time : TimeText }.

(** A row of a table joined to [main_data]: [id] and the other columns. *)
Record TableRow (V : Type) : Type := { key : Z; payload : V }.
Arguments key {V} _.
Arguments payload {V} _.

(** A row of a merged frame, with the time column of type [T]. *)
Record Row (T V : Type) : Type := { id : Z; time : T; data : V }.
Arguments id {T V} _.
Arguments time {T V} _.
Arguments data {T V} _.

(** Eighteen columns of a metric table (values) or of [corruption_status]
    (flags); [None] is NULL / NaN. *)
Abbreviation Columns A := (Channel -> Sensor -> option A).

Record Database : Type := {
  main_data : option (list SampleRow);
  rpm : option (list (TableRow (option Q)));          (* column [ch1s1] *)
  corruption_status : option (list (TableRow (Columns Z)));
  metric_table : string -> option (list (TableRow (Columns Q)))
}.

(** [pd.read_sql('SELECT * FROM <name>', conn)] *)
Definition read_sql {A : Type} (name : string) (table : option (list A)) : Result (list A) :=
  match table with
  | Some rows => Return rows
  | None => Raise (DatabaseError name)
  end.

(** [pd.merge(df, other, on='id', how='inner')]: every pair of a left and a
    right row with the same [id], in the order of the left rows. *)
Definition merge_inner {V : Type} (df : list SampleRow) (other : list (TableRow V))
  : list (Row TimeText V) :=
  flat_map (fun s =>
              map (fun o => {| id := sample_id s; time := sample_time s; data := payload o |})
                  (List.filter (fun o => key o =? sample_id s) other))
           df.

Definition parse_time (t : TimeText) : Result Timestamp :=
  match t with
  | Parses ns => Return ns
  | Unparseable text => Raise (ParserError text)
  end.

(** [frame['time'] = pd.to_datetime(frame['time'])] *)
Definition to_datetime {V : Type} (frame : list (Row TimeText V))
  : Result (list (Row Timestamp V)) :=
  for_each (fun r => try t <- parse_time (time r);
                     Return {| id := id r; time := t; data := data r |})
           frame.

(** [frame.sort_values('time')]: ascending, rows of equal time in their
    earlier order. *)
Fixpoint insert_by_time {V : Type} (r : Row Timestamp V) (l : list (Row Timestamp V))
  : list (Row Timestamp V) :=
  match l with
  | [] => [r]
  | x :: l' => if time r <=? time x then r :: l else x :: insert_by_time r l'
  end.

Definition sort_values_time {V : Type} (frame : list (Row Timestamp V))
  : list (Row Timestamp V) :=
  fold_right insert_by_time [] frame.

(** Two notions for stating what the loaders do: a parsed row keeps the
    identifier and the columns of the row it was read from, and an
    identifier has a row in a table. *)
Definition parsed_from {V : Type} (r : Row TimeText V) (o : Row Timestamp V) : Prop :=
  id o = id r /\ data o = data r /\ time r = Parses (time o).

Definition has_key {V : Type} (other : list (TableRow V)) (i : Z) : bool :=
  existsb (fun o => key o =? i) other.

End Frame.

(** ** [app_metrics.py]: the time-series viewer *)
Module Metrics.
Import Py Calendar Frame.

Definition AVAILABLE_METRICS : list string :=
  ["std_dev"; "rms"; "iqr"; "clean_max"; "clean_min"; "clean_range";
   "outlier_count"; "skewness"; "simpson"; "trapz"; "std_error"]%string.

Definition SENSORS : list Sensor := [s1; s2; s3; s4; s5; s6].

(** [np.arange(0, 18, 0.5)] *)
Definition BINS : list Q := map (fun k => inject_Z k * (1 # 2))%Q (seqZ 0 36).

Definition CHANNELS : list Channel := [ch1; ch2; ch3].

Definition COLORS (ch : Channel) : string :=
  match ch with ch1 => "blue" | ch2 => "red" | ch3 => "green" end.

Definition MetricFrame : Type := list (Row Timestamp (Columns Q)).
Definition RpmFrame : Type := list (Row Timestamp (option Q)).

(** [load_data(metric)]; the handler of its [try] logs and re-raises, so an
    exception leaves the function as it was raised. *)
Definition load_data (db : Database) (metric : string)
  : Result (MetricFrame * RpmFrame * string) :=
  try df <- read_sql "main_data" (main_data db);
  try df_rpm <- read_sql "rpm" (rpm db);
  try df1 <- read_sql metric (metric_table db metric);
  let merged_df1 := merge_inner df df1 in
  let merged_df2 := merge_inner df df_rpm in
  try merged_df1 <- to_datetime merged_df1;
  try merged_df2 <- to_datetime merged_df2;
  Return (merged_df1, merged_df2, metric).

(** [column >= b] and [column < b]: false on NaN. *)
Definition ge_mask (v : option Q) (b : Q) : bool :=
  match v with
  | Some q => Qle_bool b q
  | None => false
  end.

Definition lt_mask (v : option Q) (b : Q) : bool :=
  match v with
  | Some q => negb (Qle_bool b q)
  | None => false
  end.

(** The mask of the date filter, on the dates of the two bounds. *)
Definition date_mask {V : Type} (start_day end_day : Z) (r : Row Timestamp V) : bool :=
  (start_day <=? dt_date (time r)) && (dt_date (time r) <=? end_day).

(** The mask of the RPM filter, on column [ch1s1] of the RPM frame. *)
Definition rpm_mask (rpm_bin : Num) (r : Row Timestamp (option Q)) : bool :=
  ge_mask (data r) (value rpm_bin) && lt_mask (data r) (value (add_half rpm_bin)).

Definition date_filtered (start_day end_day : Z) (merged_df1 : MetricFrame) : MetricFrame :=
  sort_values_time (List.filter (date_mask start_day end_day) merged_df1).

Definition rpm_filtered (rpm_bin : Num) (merged_df2 : RpmFrame) : RpmFrame :=
  sort_values_time (List.filter (rpm_mask rpm_bin) merged_df2).

(** [pd.merge(df_filtered, rpm_filtered[['id', 'time']], on=['id', 'time'])] *)
Definition merge_id_time (left : MetricFrame) (right : list (Z * Timestamp)) : MetricFrame :=
  flat_map (fun l =>
              map (fun _ => l)
                  (List.filter (fun k => (fst k =? id l) && (snd k =? time l)) right))
           left.

Definition final_frame (df_filtered : MetricFrame) (rpm_rows : RpmFrame) : MetricFrame :=
  sort_values_time (merge_id_time df_filtered (map (fun r => (id r, time r)) rpm_rows)).

(** A series indexed by day: the day and the value, [None] for NaN. *)
Definition Series : Type := list (Z * option Q).

Fixpoint dropna (l : list (option Q)) : list Q :=
  match l with
  | [] => []
  | Some q :: l' => q :: dropna l'
  | None :: l' => dropna l'
  end.

Definition total (l : list Q) : Q := fold_right Qplus 0%Q l.

(** Mean of the values that are not NaN; NaN when there are none. *)
Definition mean (l : list (option Q)) : option Q :=
  match dropna l with
  | [] => None
  | q :: qs => Some (total (q :: qs) / inject_Z (Z.of_nat (length (q :: qs))))%Q
  end.

(** [series.resample('D').mean()]: one bin per day from the first to the
    last day that occurs, each with the mean of that day's values. *)
Definition resample_D_mean (s : list (Timestamp * option Q)) : Series :=
  match map (fun p => dt_date (fst p)) s with
  | [] => []
  | d :: ds =>
      let lo := fold_right Z.min d ds in
      let hi := fold_right Z.max d ds in
      map (fun day =>
             (day, mean (map snd (List.filter (fun p => dt_date (fst p) =? day) s))))
          (seqZ lo (hi - lo + 1))
  end.

(** The window that ends at the current value: that value and the
    [window - 1] before it ([seen] holds the earlier values, latest first).
    The result is the mean of what is not NaN in the window, and NaN when
    fewer than [min_periods] values are. *)
Definition window_mean (window min_periods : nat) (seen : list (option Q)) (x : option Q)
  : option Q :=
  let w := take window (x :: seen) in
  if (min_periods <=? length (dropna w))%nat then mean w else None.

Fixpoint rolling_from (window min_periods : nat) (seen : list (option Q)) (s : Series)
  : Series :=
  match s with
  | [] => []
  | (day, x) :: s' =>
      (day, window_mean window min_periods seen x)
        :: rolling_from window min_periods (x :: seen) s'
  end.

(** [series.rolling(window=window, min_periods=min_periods).mean()] *)
Definition rolling_mean (window min_periods : nat) (s : Series) : Result Series :=
  if (window <? min_periods)%nat
  then Raise (ValueError "min_periods must be <= window")
  else Return (rolling_from window min_periods [] s).

Record Scatter : Type := {
  x : list Timestamp;
  y : list (option Q);
  mode : string;
  name : string;
  line_color : string;
  line_width : Q;
  line_shape : string;
  marker_color : string;
  marker_size : Z;
  connectgaps : bool;
  opacity : Q
}.

Record Layout : Type := {
  title : string;
  xaxis_title : string;
  yaxis_title : string;
  yaxis_range : option Q * option Q;
  showlegend : bool;
  height : Z;
  legend_title : string
}.

Record Figure : Type := { traces : list Scatter; layout : Layout }.

(** [go.Figure(figure).to_image(format, width, height, scale, engine)]: the
    bytes are those of this rendering of the figure. *)
Record Image : Type := {
  source : Figure;
  format : string;
  width : Z;
  height_px : Z;
  scale : Q;
  engine : string
}.

(** [dcc.send_bytes(img_bytes, filename)] *)
Record Download : Type := { content : Image; filename : string }.

Section Rendering.

(** [str] of a [float], as an f-string prints it. *)
Variable float_repr : Q -> string.

Definition str_num (n : Num) : string :=
  match n with
  | PyInt z => str_int z
  | PyFloat q => float_repr q
  end.

Definition str_days (ma_days : nat) : string := str_int (Z.of_nat ma_days).

(** The body of the loop over [CHANNELS]. *)
Definition channel_trace (final_df : MetricFrame) (selected_sensor : Sensor)
           (ma_days : nat) (ch : Channel) : Result Scatter :=
  let column := map (fun r => (time r, data r ch selected_sensor)) final_df in
  try ma_data <- rolling_mean ma_days 1 (resample_D_mean column);
  Return {|
    x := map (fun p => fst p * NS_PER_DAY) ma_data;
    y := map snd ma_data;
    mode := "lines+markers";
    name := "Channel " ++ channel_name ch ++ " (" ++ str_days ma_days ++ "-day MA)";
    line_color := COLORS ch;
    line_width := 3 # 2;
    line_shape := "linear";
    marker_color := COLORS ch;
    marker_size := 5;
    connectgaps := true;
    opacity := 6 # 10
  |}%string.

Definition update_graph (db : Database) (selected_metric : string)
           (selected_sensor : Sensor) (rpm_bin : Num) (start_date end_date : TimeText)
           (y_min y_max : option Q) (ma_days : nat) : Result Figure :=
  try '(merged_df1, merged_df2, metric) <- load_data db selected_metric;
  try start <- parse_time start_date;
  try stop <- parse_time end_date;
  let df_filtered := date_filtered (dt_date start) (dt_date stop) merged_df1 in
  let rpm_rows := rpm_filtered rpm_bin merged_df2 in
  let final_df := final_frame df_filtered rpm_rows in
  try fig_traces <- for_each (channel_trace final_df selected_sensor ma_days) CHANNELS;
  Return {|
    traces := fig_traces;
    layout := {|
      title := title_case (replace_underscore selected_metric) ++ " - Sensor "
               ++ sensor_name selected_sensor ++ " Data for RPM " ++ str_num rpm_bin
               ++ "-" ++ str_num (add_half rpm_bin) ++ " (" ++ str_days ma_days
               ++ "-day Moving Average)";
      xaxis_title := "Time";
      yaxis_title := "Value";
      yaxis_range := (y_min, y_max);
      showlegend := true;
      height := 600;
      legend_title := "Channel"
    |}
  |}%string.

Definition download_name (selected_metric : string) (selected_sensor : Sensor)
           (rpm_bin : Num) (ma_days : nat) : string :=
  (selected_metric ++ "_Sensor_" ++ sensor_name selected_sensor ++ "_RPM_"
   ++ str_num rpm_bin ++ "-" ++ str_num (add_half rpm_bin) ++ "_MA_"
   ++ str_days ma_days ++ "days.png")%string.

(** [download_graph]; without a click it falls off its end and returns
    [None]. *)
Definition download_graph (n_clicks : option Z) (selected_metric : string)
           (selected_sensor : Sensor) (rpm_bin : Num) (ma_days : nat) (figure : Figure)
  : option Download :=
  if truthy n_clicks then
    let filename := download_name selected_metric selected_sensor rpm_bin ma_days in
    let img_bytes := {| source := figure; format := "png"; width := 1920;
                        height_px := 1080; scale := 2; engine := "kaleido" |} in
    Some {| content := img_bytes; filename := filename |}
  else None.

(** The state of the page's inputs, and the two callbacks as their
    decorators wire them to it. *)
Record Widgets : Type := {
  metric_dropdown : string;
  sensor_dropdown : Sensor;
  channel_dropdown : list Channel;
  rpm_dropdown : Num;
  ma_slider : nat;
  y_min_input : option Q;
  y_max_input : option Q;
  date_picker_start : TimeText;
  date_picker_end : TimeText;
  btn_download : option Z;
  sensor_graph : Figure
}.

Definition on_input (db : Database) (w : Widgets) : Result Figure :=
  update_graph db (metric_dropdown w) (sensor_dropdown w) (rpm_dropdown w)
               (date_picker_start w) (date_picker_end w)
               (y_min_input w) (y_max_input w) (ma_slider w).

Definition on_download (w : Widgets) : option Download :=
  download_graph (btn_download w) (metric_dropdown w) (sensor_dropdown w)
                 (rpm_dropdown w) (ma_slider w) (sensor_graph w).

(** The page after the user has chosen the channels [chosen]. *)
Definition select_channels (chosen : list Channel) (w : Widgets) : Widgets :=
  {| metric_dropdown := metric_dropdown w;
     sensor_dropdown := sensor_dropdown w;
     channel_dropdown := chosen;
     rpm_dropdown := rpm_dropdown w;
     ma_slider := ma_slider w;
     y_min_input := y_min_input w;
     y_max_input := y_max_input w;
     date_picker_start := date_picker_start w;
     date_picker_end := date_picker_end w;
     btn_download := btn_download w;
     sensor_graph := sensor_graph w |}.

End Rendering.

(** Equality of two values of a series, and of two series: the same days
    with the same numbers, NaN only against NaN. *)
Definition same_value (a b : option Q) : Prop :=
  match a, b with
  | Some p, Some q => (p == q)%Q
  | None, None => True
  | _, _ => False
  end.

Definition same_series (s t : Series) : Prop :=
  Forall2 (fun a b => fst a = fst b /\ same_value (snd a) (snd b)) s t.

(** [sub] occurs in [s]. *)
Definition contains (sub s : string) : Prop :=
  exists before after : string, s = (before ++ sub ++ after)%string.

End Metrics.

(** ** [app_corruption.py]: the weekly corruption heatmap *)
Module Corruption.
Import Py Calendar Frame.

Definition FlagFrame : Type := list (Row Timestamp (Columns Z)).
Definition RpmFrame : Type := list (Row Timestamp (option Q)).

Definition load_data (db : Database) : Result (FlagFrame * RpmFrame) :=
  try df <- read_sql "main_data" (main_data db);
  try df_rpm <- read_sql "rpm" (rpm db);
  try df1 <- read_sql "corruption_status" (corruption_status db);
  let merged_df1 := merge_inner df df1 in
  let merged_df2 := merge_inner df df_rpm in
  try merged_df1 <- to_datetime merged_df1;
  try merged_df2 <- to_datetime merged_df2;
  Return (merged_df1, merged_df2).

(** The keys of a [groupby], and [sorted(series.unique())]: each value
    once, ascending. *)
Fixpoint insert_key (k : Z) (l : list Z) : list Z :=
  match l with
  | [] => [k]
  | k' :: l' =>
      if k <? k' then k :: l
      else if k =? k' then l
      else k' :: insert_key k l'
  end.

Definition group_keys (ks : list Z) : list Z := fold_right insert_key [] ks.

Definition years (merged_df1 : FlagFrame) : list Z :=
  group_keys (map (fun r => dt_year (time r)) merged_df1).

(** All channel-sensor combinations, the choices of the selector. *)
Definition sensors : list (Channel * Sensor) :=
  flat_map (fun ch => map (fun s => (ch, s)) [s1; s2; s3; s4; s5; s6]) [ch1; ch2; ch3].

(** A row of [df_year]: a row of the year with its two added columns. *)
Record YearRow : Type := {
  source_row : Row Timestamp (Columns Z);
  week : Z;
  is_corrupted : Z
}.

(** [(column == 1).astype(int)] *)
Definition flag_is_one (v : option Z) : Z :=
  match v with
  | Some f => if f =? 1 then 1 else 0
  | None => 0
  end.

(** The columns [week] and [is_corrupted] added to a row. *)
Definition with_columns (selected_sensor : Channel * Sensor)
           (r : Row Timestamp (Columns Z)) : YearRow :=
  {| source_row := r;
     week := dt_week (time r);
     is_corrupted := flag_is_one (data r (fst selected_sensor) (snd selected_sensor)) |}.

Definition year_rows (merged_df1 : FlagFrame) (selected_year : Z)
           (selected_sensor : Channel * Sensor) : list YearRow :=
  map (with_columns selected_sensor)
      (List.filter (fun r => dt_year (time r) =? selected_year) merged_df1).

(** A row of [weekly_stats] once the percentage column is added. *)
Record WeekStat : Type := {
  stat_week : Z;
  stat_id : Z;                     (* count of [id] *)
  stat_is_corrupted : Z;           (* sum of [is_corrupted] *)
  corruption_percentage : Q
}.

Definition sum_Z (l : list Z) : Z := fold_right Z.add 0 l.

(** [groupby('week').agg({'id': 'count', 'is_corrupted': 'sum'})
    .reset_index()] and the percentage column. *)
Definition group_stats (df_year : list YearRow) : list WeekStat :=
  map (fun w =>
         let group := List.filter (fun r => week r =? w) df_year in
         let count := Z.of_nat (length group) in
         let corrupted := sum_Z (map is_corrupted group) in
         {| stat_week := w;
            stat_id := count;
            stat_is_corrupted := corrupted;
            corruption_percentage := (inject_Z corrupted / inject_Z count * 100)%Q |})
      (group_keys (map week df_year)).

(** [range(1, 54)] *)
Definition all_weeks : list Z := seqZ 1 53.

(** A row of the left join: the columns of the right side are NaN where
    the week has no statistics. *)
Record JoinedStat : Type := {
  joined_week : Z;
  joined_id : option Z;
  joined_is_corrupted : option Z;
  joined_percentage : option Q
}.

(** The rows that a left join gives for one key of the left side: one for
    each match on the right, or one of NaN without a match. *)
Definition join_week (stats : list WeekStat) (w : Z) : list JoinedStat :=
  match List.filter (fun s => stat_week s =? w) stats with
  | [] => [{| joined_week := w; joined_id := None;
              joined_is_corrupted := None; joined_percentage := None |}]
  | matches =>
      map (fun s => {| joined_week := w;
                       joined_id := Some (stat_id s);
                       joined_is_corrupted := Some (stat_is_corrupted s);
                       joined_percentage := Some (corruption_percentage s) |})
          matches
  end.

(** [pd.merge(all_weeks, weekly_stats, on='week', how='left')] *)
Definition merge_left (weeks : list Z) (stats : list WeekStat) : list JoinedStat :=
  flat_map (join_week stats) weeks.

(** [fillna(0)] *)
Definition fillna (j : JoinedStat) : WeekStat :=
  {| stat_week := joined_week j;
     stat_id := default 0 (joined_id j);
     stat_is_corrupted := default 0 (joined_is_corrupted j);
     corruption_percentage := default 0%Q (joined_percentage j) |}.

Definition weekly_stats (df_year : list YearRow) : list WeekStat :=
  map fillna (merge_left all_weeks (group_stats df_year)).

(** A two-dimensional array as the list of its rows. *)
Abbreviation Matrix A := (list (list A)).

Definition full {A : Type} (rows cols : nat) (a : A) : Matrix A :=
  replicate rows (replicate cols a).

(** [m[row, col]] and [m[row, col] = v]; the loop below stays inside the
    array, where numpy and these agree. *)
Definition mget {A : Type} (row col : nat) (m : Matrix A) : option A :=
  match m !! row with
  | Some r => r !! col
  | None => None
  end.

Definition mset {A : Type} (row col : nat) (v : A) (m : Matrix A) : Matrix A :=
  alter (insert col v) row m.

Definition cell_text (week_num total_samples corrupted_count : Z) : string :=
  ("Week " ++ str_int week_num ++ "<br>" ++ str_int total_samples ++ " total<br>"
   ++ str_int corrupted_count ++ " corrupted")%string.

(** The body of [for i in range(53)]; [6 - i // 8] is not negative for
    these [i]. *)
Definition populate (stats : list WeekStat)
           (m : Matrix Q * Matrix (option string)) (i : nat)
  : Matrix Q * Matrix (option string) :=
  let row := (6 - i / 8)%nat in
  let col := (i mod 8)%nat in
  if (i <? length stats)%nat then
    match stats !! i with
    | Some s =>
        (mset row col (corruption_percentage s) (fst m),
         mset row col
              (Some (cell_text (stat_week s) (stat_id s) (stat_is_corrupted s)))
              (snd m))
    | None => m
    end
  else m.

(** [matrix_data] and [matrix_text] after the first [n] steps of the loop,
    from [np.zeros((7, 8))] and [np.empty((7, 8), dtype='object')]. *)
Definition loop (stats : list WeekStat) (n : nat) : Matrix Q * Matrix (option string) :=
  fold_left (populate stats) (seq 0 n) (full 7 8 0%Q, full 7 8 None).

(** The two matrices after [for i in range(53)]. *)
Definition matrices (stats : list WeekStat) : Matrix Q * Matrix (option string) :=
  loop stats 53.

Record Heatmap : Type := {
  z : Matrix Q;
  text : Matrix (option string);
  texttemplate : string;
  colorscale : list (Q * string);
  showscale : bool;
  colorbar_title : string;
  zmin : Q;
  zmax : Q
}.

Record Figure : Type := {
  trace : Heatmap;
  title : string;
  height : Z;
  width : Z;
  showlegend : bool;
  xaxis_showticklabels : bool;
  yaxis_showticklabels : bool
}.

Definition update_heatmap (merged_df1 : FlagFrame) (selected_year : Z)
           (selected_sensor : Channel * Sensor) : Figure :=
  let df_year := year_rows merged_df1 selected_year selected_sensor in
  let stats := weekly_stats df_year in
  let '(matrix_data, matrix_text) := matrices stats in
  {| trace := {| z := matrix_data;
                 text := matrix_text;
                 texttemplate := "%{text}<br>%{z:.1f}% corrupted";
                 colorscale := [(0, "green"); (1 # 2, "yellow"); (1, "red")]%Q%string;
                 showscale := true;
                 colorbar_title := "Corruption %";
                 zmin := 0;
                 zmax := 100 |};
     title := "Weekly Corruption Status for "
              ++ column_name (fst selected_sensor) (snd selected_sensor)
              ++ " (" ++ str_int selected_year ++ ")";
     height := 800;
     width := 1200;
     showlegend := false;
     xaxis_showticklabels := false;
     yaxis_showticklabels := false |}%string.

(** Where a value sits on the colour scale of a heatmap: linearly between
    [zmin] (0) and [zmax] (1).  Cells at the same place get the same
    colour. *)
Definition scale_position (h : Heatmap) (v : Q) : Q :=
  ((v - zmin h) / (zmax h - zmin h))%Q.

(** *** What the grid is to show

    The definitions below follow the words of the specification, not the
    code: the rows of one ISO week of the selected year, their number, the
    number of them whose selected column is 1, the percentage (zero for a
    week without rows), and the cell of the grid that belongs to a week. *)
Definition week_rows (merged_df1 : FlagFrame) (year w : Z) : FlagFrame :=
  List.filter (fun r => (dt_year (time r) =? year) && (dt_week (time r) =? w)) merged_df1.

Definition week_total (merged_df1 : FlagFrame) (year w : Z) : Z :=
  Z.of_nat (length (week_rows merged_df1 year w)).

Definition week_corrupted (merged_df1 : FlagFrame) (year : Z)
           (sensor : Channel * Sensor) (w : Z) : Z :=
  Z.of_nat (length (List.filter
                      (fun r => match data r (fst sensor) (snd sensor) with
                                | Some f => f =? 1
                                | None => false
                                end)
                      (week_rows merged_df1 year w))).

Definition week_percentage (merged_df1 : FlagFrame) (year : Z)
           (sensor : Channel * Sensor) (w : Z) : Q :=
  if week_total merged_df1 year w =? 0 then 0%Q
  else (inject_Z (week_corrupted merged_df1 year sensor w)
        / inject_Z (week_total merged_df1 year w) * 100)%Q.

Definition week_cell (w : Z) : nat * nat :=
  (Z.to_nat (6 - (w - 1) / 8), Z.to_nat ((w - 1) mod 8)).

(** A matrix of seven rows of eight cells. *)
Definition is_grid {A : Type} (m : Matrix A) : Prop :=
  length m = 7%nat /\ Forall (fun r => length r = 8%nat) m.

(** The 56 cells of the grid, and those of them that carry a text. *)
Definition grid_cells : list (nat * nat) :=
  flat_map (fun row => map (fun col => (row, col)) (seq 0 8)) (seq 0 7).

Definition is_populated (m : Matrix (option string)) (cell : nat * nat) : bool :=
  match mget (fst cell) (snd cell) m with
  | Some (Some _) => true
  | _ => false
  end.

Definition populated_cells (m : Matrix (option string)) : list (nat * nat) :=
  List.filter (is_populated m) grid_cells.

(** What the cell of step [k] holds after [n] steps: the entry of row [k]
    of the statistics once step [k] has run and has found such a row, and
    the initial value before. *)
Definition data_written (stats : list WeekStat) (n k : nat) : Q :=
  if (k <? n)%nat then
    match stats !! k with
    | Some s => corruption_percentage s
    | None => 0%Q
    end
  else 0%Q.

Definition text_written (stats : list WeekStat) (n k : nat) : option string :=
  if (k <? n)%nat then
    match stats !! k with
    | Some s => Some (cell_text (stat_week s) (stat_id s) (stat_is_corrupted s))
    | None => None
    end
  else None.

(** The row of [weekly_stats] for week [w], in the words of the
    specification. *)
Definition week_entry (merged_df1 : FlagFrame) (year : Z)
           (sensor : Channel * Sensor) (w : Z) : WeekStat :=
  {| stat_week := w;
     stat_id := week_total merged_df1 year w;
     stat_is_corrupted := week_corrupted merged_df1 year sensor w;
     corruption_percentage := week_percentage merged_df1 year sensor w |}.

End Corruption.

(** ** A small store, for the examples *)
Module Samples.
Import Py Calendar Frame.

(** Column [ch1s1] holds [a], every other column of channel 1 too; channel
    2 holds [b] and channel 3 is NaN. *)
Definition by_channel {A : Type} (a b : A) : Columns A :=
  fun ch _ => match ch with ch1 => Some a | ch2 => Some b | ch3 => None end.

Definition samples : list SampleRow :=
  [ {| sample_id := 1; sample_time := Parses (at_time 2024 1 1 8 0) |};
    {| sample_id := 2; sample_time := Parses (at_time 2024 1 1 20 0) |};
    {| sample_id := 3; sample_time := Parses (at_time 2024 1 3 9 30) |};
    {| sample_id := 4; sample_time := Parses (at_time 2024 1 10 23 59) |};
    {| sample_id := 5; sample_time := Parses (at_time 2021 1 1 12 0) |} ].

Definition rpm_rows : list (TableRow (option Q)) :=
  [ {| key := 1; payload := Some 10%Q |};
    {| key := 2; payload := Some (41 # 4) |};
    {| key := 3; payload := Some (21 # 2) |};
    {| key := 4; payload := Some (1049 # 100) |};
    {| key := 5; payload := None |} ].

Definition std_dev_rows : list (TableRow (Columns Q)) :=
  [ {| key := 1; payload := by_channel 2%Q 1%Q |};
    {| key := 2; payload := by_channel 4%Q 1%Q |};
    {| key := 4; payload := by_channel 7%Q 5%Q |};
    {| key := 9; payload := by_channel 8%Q 8%Q |} ].

(** A metric table none of whose identifiers is a sample's. *)
Definition rms_rows : list (TableRow (Columns Q)) :=
  [ {| key := 7; payload := by_channel 1%Q 1%Q |};
    {| key := 8; payload := by_channel 2%Q 2%Q |} ].

Definition flag_rows : list (TableRow (Columns Z)) :=
  [ {| key := 1; payload := by_channel 1 0 |};
    {| key := 2; payload := by_channel 0 0 |};
    {| key := 3; payload := by_channel 1 1 |};
    {| key := 4; payload := by_channel 1 0 |};
    {| key := 5; payload := by_channel 0 1 |} ].

Definition store : Database :=
  {| main_data := Some samples;
     rpm := Some rpm_rows;
     corruption_status := Some flag_rows;
     metric_table := fun metric =>
       if String.eqb metric "std_dev" then Some std_dev_rows
       else if String.eqb metric "rms" then Some rms_rows
       else None |}.

(** [str] of a float with at most one decimal after the point, which is
    all that the bins of the viewer need. *)
Definition repr_tenths (q : Q) : string :=
  let tenths := (Qnum q * 10) / Z.pos (Qden q) in
  (str_int (tenths / 10) ++ "." ++ str_int (tenths mod 10))%string.

(** The two frames that loading [std_dev] from [store] gives. *)
Definition joined_std_dev : Metrics.MetricFrame :=
  [ {| id := 1; time := at_time 2024 1 1 8 0; data := by_channel 2%Q 1%Q |};
    {| id := 2; time := at_time 2024 1 1 20 0; data := by_channel 4%Q 1%Q |};
    {| id := 4; time := at_time 2024 1 10 23 59; data := by_channel 7%Q 5%Q |} ].

Definition joined_rpm : Metrics.RpmFrame :=
  [ {| id := 1; time := at_time 2024 1 1 8 0; data := Some 10%Q |};
    {| id := 2; time := at_time 2024 1 1 20 0; data := Some (41 # 4) |};
    {| id := 3; time := at_time 2024 1 3 9 30; data := Some (21 # 2) |};
    {| id := 4; time := at_time 2024 1 10 23 59; data := Some (1049 # 100) |};
    {| id := 5; time := at_time 2021 1 1 12 0; data := None |} ].

Definition joined_flags : Corruption.FlagFrame :=
  [ {| id := 1; time := at_time 2024 1 1 8 0; data := by_channel 1 0 |};
    {| id := 2; time := at_time 2024 1 1 20 0; data := by_channel 0 0 |};
    {| id := 3; time := at_time 2024 1 3 9 30; data := by_channel 1 1 |};
    {| id := 4; time := at_time 2024 1 10 23 59; data := by_channel 1 0 |};
    {| id := 5; time := at_time 2021 1 1 12 0; data := by_channel 0 1 |} ].

Definition blank_figure : Metrics.Figure :=
  {| Metrics.traces := [];
     Metrics.layout := {| Metrics.title := ""; Metrics.xaxis_title := "";
                          Metrics.yaxis_title := ""; Metrics.yaxis_range := (None, None);
                          Metrics.showlegend := false; Metrics.height := 0;
                          Metrics.legend_title := "" |} |}.

(** The page with channel 1 alone selected, bin 10 to 10.5, the first ten
    days of 2024, a seven-day window, and the download button clicked
    once. *)
Definition page : Metrics.Widgets :=
  {| Metrics.metric_dropdown := "std_dev";
     Metrics.sensor_dropdown := s1;
     Metrics.channel_dropdown := [ch1];
     Metrics.rpm_dropdown := PyInt 10;
     Metrics.ma_slider := 7%nat;
     Metrics.y_min_input := Some 0%Q;
     Metrics.y_max_input := Some 10%Q;
     Metrics.date_picker_start := Parses (at_time 2024 1 1 0 0);
     Metrics.date_picker_end := Parses (at_time 2024 1 10 0 0);
     Metrics.btn_download := Some 1;
     Metrics.sensor_graph := blank_figure |}.

End Samples.

(** ** What the viewer's page starts from *)
Module Startup.
Import Py Calendar Frame.

(** Ascending order of values, for the percentiles. *)
Fixpoint insert_value (v : Q) (l : list Q) : list Q :=
  match l with
  | [] => [v]
  | a :: l' => if Qle_bool v a then v :: l else a :: insert_value v l'
  end.

Definition sort_values (l : list Q) : list Q := fold_right insert_value [] l.

(** [all_values] of [calculate_y_limits]: the values that are not NaN of
    the eighteen columns, channel by channel and sensor by sensor. *)
Definition all_values (merged_df1 : Metrics.MetricFrame) : list Q :=
  flat_map (fun ch =>
              flat_map (fun s => Metrics.dropna (map (fun r => data r ch s) merged_df1))
                       Metrics.SENSORS)
           Metrics.CHANNELS.

(** [np.percentile(a, q)] for [0 <= q <= 100] with the default (linear)
    method: the place [(n - 1) * q / 100] in the sorted values, between the
    value below and the value above it.  Without values numpy gives NaN or
    raises, by its version; that is [None] here. *)
Definition percentile (a : list Q) (q : Q) : option Q :=
  match sort_values a with
  | [] => None
  | first :: rest =>
      let sorted := first :: rest in
      let n := Z.of_nat (length sorted) in
      let virtual_index := (inject_Z (n - 1) * (q / 100))%Q in
      let previous := Qfloor virtual_index in
      let next := Z.min (previous + 1) (n - 1) in
      let gamma := (virtual_index - inject_Z previous)%Q in
      let lower := nth (Z.to_nat previous) sorted first in
      let upper := nth (Z.to_nat next) sorted first in
      Some (lower + (upper - lower) * gamma)%Q
  end.

(** [calculate_y_limits()]: the percentiles 2.5 and 97.5. *)
Definition calculate_y_limits (merged_df1 : Metrics.MetricFrame) : option (Q * Q) :=
  match percentile (all_values merged_df1) (5 # 2),
        percentile (all_values merged_df1) (195 # 2) with
  | Some y_min, Some y_max => Some (y_min, y_max)
  | _, _ => None
  end.

(** The bins offered by the RPM dropdown, [BINS[:-1]]. *)
Definition rpm_options : list Q := removelast Metrics.BINS.

End Startup.

(** ** More sample values *)
Module MoreSamples.
Import Py Calendar Frame.

(** The figure of the sample store for [std_dev], sensor 1, bin 10 to 10.5,
    the first ten days of 2024 and a two-day window. *)
Definition sample_figure : Metrics.Figure :=
  match Metrics.update_graph Samples.repr_tenths Samples.store "std_dev" s1 (PyInt 10)
          (Parses (at_time 2024 1 1 0 0)) (Parses (at_time 2024 1 10 0 0))
          None None 2 with
  | Return fig => fig
  | Raise _ => Samples.blank_figure
  end.

End MoreSamples.

(** * Properties *)

(** ** The calendar and the text helpers, on known values *)
Module CalendarFacts.
Import Py Calendar.

Example epoch : dt_date 0 = 0 /\ dt_year 0 = 1970 /\ dt_week 0 = 1.
Proof. repeat split. Qed.

(** 2021-01-01 is a Friday of week 53 (of ISO year 2020). *)
Example new_year_2021 :
  dt_year (at_time 2021 1 1 12 0) = 2021 /\ dt_week (at_time 2021 1 1 12 0) = 53.
Proof. split; reflexivity. Qed.

(** 2024-12-30 is the Monday of week 1 (of ISO year 2025). *)
Example end_of_2024 :
  dt_year (at_time 2024 12 30 0 0) = 2024 /\ dt_week (at_time 2024 12 30 0 0) = 1.
Proof. split; reflexivity. Qed.

Example leap_day_2024 :
  dt_year (at_time 2024 2 29 23 59) = 2024 /\ dt_week (at_time 2024 2 29 23 59) = 9
  /\ dt_date (at_time 2024 3 1 0 0) = dt_date (at_time 2024 2 29 23 59) + 1.
Proof. repeat split. Qed.

(** The date of a timestamp is its day, whatever the time of day. *)
Lemma dt_date_time_of_day (day ns : Z) :
  0 <= ns < NS_PER_DAY -> dt_date (day * NS_PER_DAY + ns) = day.
Proof.
  intros Hns. unfold dt_date. unfold NS_PER_DAY in *.
  symmetry. apply (Z.div_unique _ _ day ns); lia.
Qed.

(** Every timestamp is a day and a time of that day. *)
Lemma timestamp_day_and_time (t : Timestamp) :
  exists day ns, 0 <= ns < NS_PER_DAY /\ t = day * NS_PER_DAY + ns.
Proof.
  exists (t / NS_PER_DAY), (t mod NS_PER_DAY). unfold NS_PER_DAY. split.
  - apply Z.mod_pos_bound. reflexivity.
  - rewrite Z.mul_comm. apply Z.div_mod. discriminate.
Qed.

Example title_of_metric : title_case (replace_underscore "std_dev") = "Std Dev"%string.
Proof. reflexivity. Qed.

Example truthy_clicks :
  truthy None = false /\ truthy (Some 0) = false /\ truthy (Some 3) = true.
Proof. repeat split. Qed.

End CalendarFacts.

(** ** Exceptions and frames *)
Module FrameFacts.
Import Py Calendar Frame.

Lemma bind_Return {A B : Type} (c : Result A) (k : A -> Result B) (b : B) :
  bind c k = Return b -> exists a, c = Return a /\ k a = Return b.
Proof. destruct c as [a|e]; simpl; [eauto | discriminate]. Qed.

Lemma for_each_Forall2 {A B : Type} (f : A -> Result B) (l : list A) (bs : list B) :
  for_each f l = Return bs -> Forall2 (fun a b => f a = Return b) l bs.
Proof.
  revert bs. induction l as [|a l IH]; simpl; intros bs H.
  - injection H as <-. constructor.
  - destruct (f a) as [b|e] eqn:Hfa; simpl in H; [|discriminate].
    destruct (for_each f l) as [bs'|e]; simpl in H; [|discriminate].
    injection H as <-. constructor; auto.
Qed.

Lemma Forall2_right_sources {A B : Type} (R : A -> B -> Prop) (l : list A) (l' : list B) :
  Forall2 R l l' -> Forall (fun b => exists a, In a l /\ R a b) l'.
Proof.
  induction 1 as [|a b l l' Hab _ IH]; constructor.
  - exists a. split; [left; reflexivity | exact Hab].
  - eapply List.Forall_impl; [|exact IH]. intros b' (a' & Hin & HR).
    exists a'. split; [right; exact Hin | exact HR].
Qed.

(** What [to_datetime] returns, row by row. *)
Lemma to_datetime_rows {V : Type} (frame : list (Row TimeText V)) out :
  to_datetime frame = Return out -> Forall2 parsed_from frame out.
Proof.
  intros H. apply for_each_Forall2 in H.
  induction H as [|r o l l' Hro _ IH]; constructor; auto.
  destruct r as [i t d]; simpl in Hro. destruct t as [ns|txt]; simpl in Hro; [|discriminate].
  injection Hro as <-. repeat split.
Qed.

Lemma to_datetime_ids {V : Type} (frame : list (Row TimeText V)) out :
  to_datetime frame = Return out -> map id out = map id frame.
Proof.
  intros H. apply to_datetime_rows in H.
  induction H as [|r o l l' (Hid & _) _ IH]; simpl; congruence.
Qed.

Lemma to_datetime_nil {V : Type} : to_datetime (@nil (Row TimeText V)) = Return [].
Proof. reflexivity. Qed.

(** *** The inner join on [id] *)

Lemma matches_at_most_one {V : Type} (other : list (TableRow V)) (k : Z) :
  List.NoDup (map key other) ->
  (length (List.filter (fun o => (key o =? k)%Z) other) <= 1)%nat.
Proof.
  induction other as [|o other IH]; simpl; intros Hnd; [lia|].
  apply List.NoDup_cons_iff in Hnd as [Hnotin Hnd].
  destruct (Z.eqb_spec (key o) k) as [Hk|Hk]; [|auto].
  simpl. destruct (List.filter (fun o0 => key o0 =? k) other) as [|o' rest] eqn:Hf;
    [simpl; lia|].
  exfalso. apply Hnotin.
  assert (Hin : In o' (List.filter (fun o0 => key o0 =? k) other)) by (rewrite Hf; left; reflexivity).
  apply filter_In in Hin as [Hin Hk']. apply Z.eqb_eq in Hk'.
  rewrite Hk, <- Hk'. apply in_map; exact Hin.
Qed.

Lemma matches_nil_iff {V : Type} (other : list (TableRow V)) (k : Z) :
  List.filter (fun o => key o =? k) other = [] <-> ~ In k (map key other).
Proof.
  induction other as [|o other IH]; simpl; [tauto|].
  destruct (Z.eqb_spec (key o) k) as [Hk|Hk].
  - split; [discriminate|]. intros H; exfalso; apply H; auto.
  - rewrite IH. tauto.
Qed.

Lemma merge_inner_In {V : Type} (df : list SampleRow) (other : list (TableRow V)) r :
  In r (merge_inner df other) <->
  exists s o, In s df /\ In o other /\ key o = sample_id s /\
              r = {| id := sample_id s; time := sample_time s; data := payload o |}.
Proof.
  unfold merge_inner. rewrite in_flat_map. split.
  - intros (s & Hs & Hr). apply in_map_iff in Hr as (o & <- & Ho).
    apply filter_In in Ho as [Ho Hk]. apply Z.eqb_eq in Hk. eauto 7.
  - intros (s & o & Hs & Ho & Hk & ->). exists s. split; [exact Hs|].
    apply in_map_iff. exists o. split; [reflexivity|].
    apply filter_In. split; [exact Ho|]. apply Z.eqb_eq; exact Hk.
Qed.

Lemma has_key_In {V : Type} (other : list (TableRow V)) (i : Z) :
  has_key other i = true <-> In i (map key other).
Proof.
  unfold has_key. rewrite existsb_exists, in_map_iff. split.
  - intros (o & Ho & Hk). apply Z.eqb_eq in Hk. eauto.
  - intros (o & Hk & Ho). exists o. split; [exact Ho|]. apply Z.eqb_eq; exact Hk.
Qed.

Lemma merge_inner_ids {V : Type} (df : list SampleRow) (other : list (TableRow V)) :
  List.NoDup (map key other) ->
  map id (merge_inner df other) = List.filter (has_key other) (map sample_id df).
Proof.
  intros Hnd. induction df as [|s df IH]; [reflexivity|].
  unfold merge_inner in *. simpl. rewrite map_app, IH. clear IH.
  pose proof (matches_at_most_one other (sample_id s) Hnd) as Hle.
  pose proof (matches_nil_iff other (sample_id s)) as Hnil.
  destruct (has_key other (sample_id s)) eqn:Hk.
  - apply has_key_In in Hk.
    destruct (List.filter (fun o => key o =? sample_id s) other) as [|o [|o' rest]].
    + exfalso. apply (proj1 Hnil); auto.
    + reflexivity.
    + simpl in Hle. lia.
  - assert (Hn : ~ In (sample_id s) (map key other)).
    { intros Hin. apply has_key_In in Hin. congruence. }
    apply Hnil in Hn. rewrite Hn. reflexivity.
Qed.

Lemma merge_inner_length {V : Type} (df : list SampleRow) (other : list (TableRow V)) :
  List.NoDup (map sample_id df) -> List.NoDup (map key other) ->
  (length (merge_inner df other) <= Nat.min (length df) (length other))%nat.
Proof.
  intros Hdf Hother.
  pose proof (merge_inner_ids df other Hother) as Hids.
  assert (Hlen : length (merge_inner df other)
                 = length (List.filter (has_key other) (map sample_id df))).
  { rewrite <- Hids. symmetry. apply length_map. }
  rewrite Hlen. apply Nat.min_glb.
  - rewrite <- (length_map sample_id df). apply filter_length_le.
  - rewrite <- (length_map key other). apply List.NoDup_incl_length.
    + apply List.NoDup_filter; exact Hdf.
    + intros i Hi. apply filter_In in Hi as [_ Hi]. apply has_key_In; exact Hi.
Qed.

Lemma merge_inner_no_match {V : Type} (df : list SampleRow) (other : list (TableRow V)) :
  (forall s o, In s df -> In o other -> key o <> sample_id s) ->
  merge_inner df other = [].
Proof.
  intros Hno. destruct (merge_inner df other) as [|r rest] eqn:Hm; [reflexivity|].
  assert (Hin : In r (merge_inner df other)) by (rewrite Hm; left; reflexivity).
  apply merge_inner_In in Hin as (s & o & Hs & Ho & Hk & _).
  exfalso. exact (Hno s o Hs Ho Hk).
Qed.

(** *** Sorting by time *)

Lemma insert_by_time_perm {V : Type} (r : Row Timestamp V) l :
  Permutation (insert_by_time r l) (r :: l).
Proof.
  induction l as [|a l IH]; simpl; [reflexivity|].
  destruct (time r <=? time a); [reflexivity|].
  rewrite IH. apply perm_swap.
Qed.

Lemma sort_values_time_perm {V : Type} (frame : list (Row Timestamp V)) :
  Permutation (sort_values_time frame) frame.
Proof.
  induction frame as [|r frame IH]; simpl; [reflexivity|].
  rewrite insert_by_time_perm. constructor. exact IH.
Qed.

Lemma sort_values_time_In {V : Type} (frame : list (Row Timestamp V)) r :
  In r (sort_values_time frame) <-> In r frame.
Proof.
  split; apply Permutation_in;
    [apply sort_values_time_perm | symmetry; apply sort_values_time_perm].
Qed.

End FrameFacts.

(** ** The time-series viewer *)
Module MetricsFacts.
Import Py Calendar Frame Metrics FrameFacts.

(** *** Loading *)

(** C4.  When identifiers are unique in [main_data] and in the metric
    table, the frame that [load_data] joins from them has, in the order of
    the samples, exactly the identifiers that occur in both tables; every
    joined row pairs a sample with the metric row of the same identifier;
    and it has at most as many rows as the shorter of the two tables. *)
Theorem load_data_inner_join (db : Database) (metric : string)
        (samples : list SampleRow) (rows : list (TableRow (Columns Q)))
        (m1 : MetricFrame) (m2 : RpmFrame) (name : string) :
  main_data db = Some samples ->
  metric_table db metric = Some rows ->
  List.NoDup (map sample_id samples) ->
  List.NoDup (map key rows) ->
  load_data db metric = Return (m1, m2, name) ->
  map id m1 = List.filter (has_key rows) (map sample_id samples)
  /\ Forall (fun r => exists s o, In s samples /\ In o rows
                                  /\ sample_id s = id r /\ key o = id r
                                  /\ sample_time s = Parses (time r)
                                  /\ payload o = data r) m1
  /\ (length m1 <= Nat.min (length samples) (length rows))%nat.
Proof.
  intros Hmain Htable Hnd1 Hnd2 Hload.
  unfold load_data in Hload. rewrite Hmain, Htable in Hload. simpl in Hload.
  destruct (rpm db) as [rpms|]; simpl in Hload; [|discriminate].
  destruct (to_datetime (merge_inner samples rows)) as [j1|e] eqn:H1;
    simpl in Hload; [|discriminate].
  destruct (to_datetime (merge_inner samples rpms)) as [j2|e] eqn:H2;
    simpl in Hload; [|discriminate].
  injection Hload as <- <- <-.
  pose proof (to_datetime_rows _ _ H1) as Hrows.
  pose proof (to_datetime_ids _ _ H1) as Hids.
  split; [|split].
  - rewrite Hids. apply merge_inner_ids; exact Hnd2.
  - apply Forall2_right_sources in Hrows.
    eapply List.Forall_impl; [|exact Hrows].
    intros o (r & Hin & Hid & Hdata & Htime).
    apply merge_inner_In in Hin as (s & t & Hs & Ht & Hk & ->).
    simpl in *. exists s, t. repeat split; congruence.
  - rewrite <- (length_map id j1), Hids, length_map.
    apply merge_inner_length; assumption.
Qed.


Lemma load_data_inner_join_witness :
  map id Samples.joined_std_dev
  = List.filter (has_key Samples.std_dev_rows) (map sample_id Samples.samples)
  /\ Forall (fun r => exists s o, In s Samples.samples /\ In o Samples.std_dev_rows
                                  /\ sample_id s = id r /\ key o = id r
                                  /\ sample_time s = Parses (time r)
                                  /\ payload o = data r) Samples.joined_std_dev
  /\ (length Samples.joined_std_dev
      <= Nat.min (length Samples.samples) (length Samples.std_dev_rows))%nat.
Proof.
  apply (load_data_inner_join Samples.store "std_dev" Samples.samples
           Samples.std_dev_rows Samples.joined_std_dev Samples.joined_rpm "std_dev").
  - reflexivity.
  - reflexivity.
  - simpl. repeat constructor; simpl; intuition discriminate.
  - simpl. repeat constructor; simpl; intuition discriminate.
  - reflexivity.
Defined.

(** C7.  When no row of the metric table has the identifier of a sample,
    and the frame of samples with RPM loads, [load_data] raises nothing:
    it returns an empty joined frame, that same RPM frame, and the name of
    the metric. *)
Theorem load_data_no_matching_rows (db : Database) (metric : string)
        (samples : list SampleRow) (rpms : list (TableRow (option Q)))
        (rows : list (TableRow (Columns Q))) (m2 : RpmFrame) :
  main_data db = Some samples ->
  rpm db = Some rpms ->
  metric_table db metric = Some rows ->
  (forall s o, In s samples -> In o rows -> key o <> sample_id s) ->
  to_datetime (merge_inner samples rpms) = Return m2 ->
  load_data db metric = Return ([], m2, metric).
Proof.
  intros Hmain Hrpm Htable Hno Hm2.
  unfold load_data. rewrite Hmain, Hrpm, Htable. simpl.
  rewrite (merge_inner_no_match samples rows Hno), to_datetime_nil. simpl.
  rewrite Hm2. reflexivity.
Qed.

Lemma load_data_no_matching_rows_witness :
  load_data Samples.store "rms" = Return ([], Samples.joined_rpm, "rms"%string).
Proof.
  apply (load_data_no_matching_rows Samples.store "rms" Samples.samples
           Samples.rpm_rows Samples.rms_rows Samples.joined_rpm).
  - reflexivity.
  - reflexivity.
  - reflexivity.
  - intros s o Hs Ho. simpl in Hs, Ho.
    intuition (subst; discriminate).
  - reflexivity.
Defined.

(** *** Filtering *)

Lemma date_mask_spec {V : Type} (start_day end_day : Z) (r : Row Timestamp V) :
  date_mask start_day end_day r = true <-> start_day <= dt_date (time r) <= end_day.
Proof. unfold date_mask. rewrite andb_true_iff, !Z.leb_le. tauto. Qed.

Lemma date_filtered_In (start_day end_day : Z) (merged_df1 : MetricFrame) r :
  In r (date_filtered start_day end_day merged_df1) <->
  In r merged_df1 /\ start_day <= dt_date (time r) <= end_day.
Proof.
  unfold date_filtered. rewrite sort_values_time_In, filter_In, date_mask_spec.
  tauto.
Qed.

(** C10.  The date filter compares days, not instants.  Take a time of
    day for the start of the range, one for its end and one for a row, on
    the days [start_day], [end_day] and [day].  The row is in the
    date-filtered frame exactly when it is a row of the frame and
    [start_day <= day <= end_day], whatever the three times of day are.  So a
    row of the start day or of the end day is kept at any time of that day,
    also at 23:59 of an end date that is given as its midnight. *)
Theorem date_range_inclusive (start_day end_day day start_ns end_ns ns : Z)
        (merged_df1 : MetricFrame) (r : Row Timestamp (Columns Q)) :
  0 <= start_ns < NS_PER_DAY -> 0 <= end_ns < NS_PER_DAY -> 0 <= ns < NS_PER_DAY ->
  time r = day * NS_PER_DAY + ns ->
  (In r (date_filtered (dt_date (start_day * NS_PER_DAY + start_ns))
                       (dt_date (end_day * NS_PER_DAY + end_ns)) merged_df1)
   <-> In r merged_df1 /\ start_day <= day <= end_day)
  /\ (In r merged_df1 -> start_day <= end_day -> day = start_day \/ day = end_day ->
      In r (date_filtered (dt_date (start_day * NS_PER_DAY + start_ns))
                          (dt_date (end_day * NS_PER_DAY + end_ns)) merged_df1)).
Proof.
  intros Hstart Hend Hns Htime.
  rewrite date_filtered_In, Htime.
  rewrite !CalendarFacts.dt_date_time_of_day by assumption.
  split; [reflexivity|]. intros Hin Hrange Hday. split; [exact Hin | lia].
Qed.

(** The sample of 2024-01-10 at 23:59 is kept by the range from 2024-01-01
    to 2024-01-10, both given as midnights. *)
Lemma date_range_inclusive_witness :
  In {| id := 4; time := at_time 2024 1 10 23 59; data := Samples.by_channel 7%Q 5%Q |}
     (date_filtered (dt_date (at_time 2024 1 1 0 0)) (dt_date (at_time 2024 1 10 0 0))
                    Samples.joined_std_dev).
Proof.
  apply (proj2 (date_range_inclusive 19723 19732 19732 0 0 86340000000000
                  Samples.joined_std_dev
                  {| id := 4; time := at_time 2024 1 10 23 59;
                     data := Samples.by_channel 7%Q 5%Q |}
                  ltac:(unfold NS_PER_DAY; lia) ltac:(unfold NS_PER_DAY; lia)
                  ltac:(unfold NS_PER_DAY; lia) eq_refl)).
  - simpl. auto.
  - lia.
  - right. reflexivity.
Defined.

Lemma ge_mask_spec (v : option Q) (b : Q) :
  ge_mask v b = true <-> exists q, v = Some q /\ (b <= q)%Q.
Proof.
  destruct v as [q|]; simpl.
  - rewrite Qle_bool_iff. split; [eauto|]. intros (q' & [= <-] & H). exact H.
  - split; [discriminate|]. intros (q' & H & _). discriminate.
Qed.

Lemma lt_mask_spec (v : option Q) (b : Q) :
  lt_mask v b = true <-> exists q, v = Some q /\ (q < b)%Q.
Proof.
  destruct v as [q|]; simpl.
  - rewrite negb_true_iff. split.
    + intros H. exists q. split; [reflexivity|]. apply Qnot_le_lt.
      intros Hle. apply Qle_bool_iff in Hle. congruence.
    + intros (q' & [= <-] & H). destruct (Qle_bool b q) eqn:E; [|reflexivity].
      apply Qle_bool_iff in E. exfalso. exact (Qlt_not_le _ _ H E).
  - split; [discriminate|]. intros (q' & H & _). discriminate.
Qed.

Lemma rpm_mask_spec (rpm_bin : Num) (r : Row Timestamp (option Q)) :
  rpm_mask rpm_bin r = true <->
  exists v, data r = Some v /\ (value rpm_bin <= v)%Q /\ (v < value rpm_bin + (1 # 2))%Q.
Proof.
  unfold rpm_mask. rewrite andb_true_iff, ge_mask_spec, lt_mask_spec. simpl. split.
  - intros ((q & Hq & Hge) & (q' & Hq' & Hlt)). exists q.
    rewrite Hq in Hq'. injection Hq' as <-. auto.
  - intros (v & Hv & Hge & Hlt). split; exists v; auto.
Qed.

(** C6.  For a bin that starts at [B], the RPM-filtered frame holds
    exactly the rows of the RPM frame whose [ch1s1] value [v] has
    [B <= v < B + 0.5]: a row is in it when and only when it is such a
    row, and it is a rearrangement of the rows that pass the mask. *)
Theorem rpm_filter_keeps_bin (rpm_bin : Num) (merged_df2 : RpmFrame)
        (r : Row Timestamp (option Q)) :
  (In r (rpm_filtered rpm_bin merged_df2)
   <-> In r merged_df2
       /\ exists v, data r = Some v
                    /\ (value rpm_bin <= v)%Q /\ (v < value rpm_bin + (1 # 2))%Q)
  /\ Permutation (rpm_filtered rpm_bin merged_df2)
                 (List.filter (rpm_mask rpm_bin) merged_df2).
Proof.
  split.
  - unfold rpm_filtered. rewrite sort_values_time_In, filter_In, rpm_mask_spec.
    tauto.
  - apply sort_values_time_perm.
Qed.


(** *** The moving average *)

Lemma window_mean_one (seen : list (option Q)) (v : option Q) :
  same_value (window_mean 1 1 seen v) v.
Proof.
  unfold window_mean. destruct v as [q|]; simpl.
  - unfold total. simpl. field.
  - exact I.
Qed.

Lemma rolling_from_one (seen : list (option Q)) (s : Series) :
  same_series (rolling_from 1 1 seen s) s.
Proof.
  revert seen. induction s as [|[day v] s IH]; intros seen; simpl.
  - constructor.
  - constructor; [|apply IH]. split; [reflexivity | apply window_mean_one].
Qed.

(** C5.  The rolling mean with a window of one value and a minimum of one
    period raises nothing and returns the series it was given: the same
    days, with the same value on each, NaN where it was NaN. *)
Theorem rolling_window_one (s : Series) :
  exists s', rolling_mean 1 1 s = Return s' /\ same_series s' s.
Proof.
  exists (rolling_from 1 1 [] s). split; [reflexivity | apply rolling_from_one].
Qed.

(** *** The figure *)

Section Figures.

Variable float_repr : Q -> string.

(** With a one-day window, the values of a trace are the daily means of
    its column. *)
Lemma channel_trace_window_one (final_df : MetricFrame) (sensor : Sensor) (ch : Channel) :
  exists tr, channel_trace final_df sensor 1 ch = Return tr
             /\ Forall2 same_value (y tr)
                  (map snd (resample_D_mean
                              (map (fun r => (time r, data r ch sensor)) final_df))).
Proof.
  unfold channel_trace, rolling_mean. simpl. eexists. split; [reflexivity|]. simpl.
  generalize (resample_D_mean (map (fun r => (time r, data r ch sensor)) final_df)).
  intros s. generalize (@nil (option Q)).
  induction s as [|[day v] s IH]; intros seen; simpl; constructor.
  - apply window_mean_one.
  - apply IH.
Qed.

Lemma channel_trace_style (final_df : MetricFrame) (sensor : Sensor) (ma_days : nat)
      (ch : Channel) (tr : Scatter) :
  channel_trace final_df sensor ma_days ch = Return tr ->
  mode tr = "lines+markers"%string /\ line_color tr = COLORS ch
  /\ marker_color tr = COLORS ch.
Proof.
  unfold channel_trace. destruct (rolling_mean _ _ _); simpl; [|discriminate].
  intros [= <-]. auto.
Qed.

(** Whatever the inputs, a figure that [update_graph] returns has one
    trace for each of the three channels, in the colour of the channel. *)
Lemma update_graph_traces (db : Database) (selected_metric : string)
      (selected_sensor : Sensor) (rpm_bin : Num) (start_date end_date : TimeText)
      (y_min y_max : option Q) (ma_days : nat) (fig : Figure) :
  update_graph float_repr db selected_metric selected_sensor rpm_bin start_date
               end_date y_min y_max ma_days = Return fig ->
  map line_color (traces fig) = map COLORS CHANNELS
  /\ Forall (fun tr => mode tr = "lines+markers"%string) (traces fig).
Proof.
  unfold update_graph. intros H.
  apply bind_Return in H as ([[m1 m2] metric] & _ & H).
  apply bind_Return in H as (start & _ & H).
  apply bind_Return in H as (stop & _ & H).
  apply bind_Return in H as (trs & Htr & H).
  injection H as <-. simpl.
  apply for_each_Forall2 in Htr. unfold CHANNELS in *.
  repeat match goal with
         | H : Forall2 _ (_ :: _) _ |- _ => inversion H; subst; clear H
         | H : Forall2 _ [] _ |- _ => inversion H; subst; clear H
         | H : channel_trace _ _ _ _ = Return _ |- _ =>
             apply channel_trace_style in H; destruct H as (? & ? & ?)
         end.
  simpl in *. split; [congruence|]. repeat constructor; assumption.
Qed.

End Figures.

(** The selection of channels does not reach the callback: whatever is
    chosen, the figure is the same. *)
Lemma on_input_ignores_selection (float_repr : Q -> string) (db : Database)
      (chosen : list Channel) (w : Widgets) :
  on_input float_repr db (select_channels chosen w) = on_input float_repr db w.
Proof. reflexivity. Qed.

(** The values drawn for channel 1 from the sample store, with a one-day
    and with a two-day window: the two samples of 2024-01-01 average to 3,
    and the two-day window carries that mean over the empty next day. *)
Example sample_traces :
  (try fig <- update_graph Samples.repr_tenths Samples.store "std_dev" s1 (PyInt 10)
                (Parses (at_time 2024 1 1 0 0)) (Parses (at_time 2024 1 10 0 0))
                None None 1;
   Return (map y (traces fig)))
  = Return [ [Some (6 # 2)%Q; None; None; None; None; None; None; None; None; Some 7%Q];
             [Some (2 # 2)%Q; None; None; None; None; None; None; None; None; Some 5%Q];
             [None; None; None; None; None; None; None; None; None; None] ]
  /\ (try fig <- update_graph Samples.repr_tenths Samples.store "std_dev" s1 (PyInt 10)
                   (Parses (at_time 2024 1 1 0 0)) (Parses (at_time 2024 1 10 0 0))
                   None None 2;
      Return (map y (firstn 1 (traces fig))))
     = Return [ [Some (6 # 2)%Q; Some (6 # 2)%Q; None; None; None; None; None; None; None;
                 Some 7%Q] ].
Proof. split; vm_compute; reflexivity. Qed.

Example sample_errors :
  load_data Samples.store "kurtosis" = Raise (DatabaseError "kurtosis")
  /\ update_graph Samples.repr_tenths Samples.store "std_dev" s1 (PyInt 10)
                  (Unparseable "soon") (Parses 0) None None 1
     = Raise (ParserError "soon")
  /\ update_graph Samples.repr_tenths Samples.store "std_dev" s1 (PyInt 10)
                  (Parses 0) (Parses 0) None None 0
     = Raise (ValueError "min_periods must be <= window").
Proof. repeat split. Qed.

(** C1, at a page where channel 1 alone is selected: the figure that the
    callback returns has three traces, for channels 1, 2 and 3, in blue,
    red and green, each of lines with markers. *)
Theorem update_graph_draws_unselected_channels :
  channel_dropdown Samples.page = [ch1]
  /\ exists fig, on_input Samples.repr_tenths Samples.store Samples.page = Return fig
                 /\ map name (traces fig)
                    = ["Channel ch1 (7-day MA)"; "Channel ch2 (7-day MA)";
                       "Channel ch3 (7-day MA)"]%string
                 /\ map line_color (traces fig) = ["blue"; "red"; "green"]%string
                 /\ map mode (traces fig)
                    = ["lines+markers"; "lines+markers"; "lines+markers"]%string.
Proof.
  split; [reflexivity|].
  eexists. split; [vm_compute; reflexivity|]. repeat split.
Qed.

(** *** Export *)

Lemma append_assoc (a b c : string) : ((a ++ b) ++ c = a ++ b ++ c)%string.
Proof. induction a as [|ch a IH]; simpl; [reflexivity | rewrite IH; reflexivity]. Qed.

Lemma contains_prefix (sub rest : string) : contains sub (sub ++ rest).
Proof. exists ""%string, rest. reflexivity. Qed.

Lemma contains_skip (sub p s : string) : contains sub s -> contains sub (p ++ s).
Proof.
  intros (before & after & ->). exists (p ++ before)%string, after.
  symmetry. apply append_assoc.
Qed.

(** C8.  On a click of the download button the callback returns a
    download whose content is the figure on display rendered as a PNG of
    1920 by 1080 at scale 2, and whose file name contains the metric, the
    sensor, both edges of the RPM bin as the f-string prints them, and the
    moving-average window followed by "days". *)
Theorem download_graph_export (float_repr : Q -> string) (w : Widgets) :
  truthy (btn_download w) = true ->
  exists d, on_download float_repr w = Some d
            /\ source (content d) = sensor_graph w
            /\ format (content d) = "png"%string
            /\ width (content d) = 1920
            /\ height_px (content d) = 1080
            /\ scale (content d) = 2%Q
            /\ contains (metric_dropdown w) (filename d)
            /\ contains (sensor_name (sensor_dropdown w)) (filename d)
            /\ contains (str_num float_repr (rpm_dropdown w)) (filename d)
            /\ contains (str_num float_repr (add_half (rpm_dropdown w))) (filename d)
            /\ contains (str_days (ma_slider w) ++ "days") (filename d).
Proof.
  intros Hclick. unfold on_download, download_graph. rewrite Hclick.
  eexists. split; [reflexivity|]. simpl. unfold download_name.
  repeat split.
  - apply contains_prefix.
  - apply contains_skip, contains_skip, contains_prefix.
  - do 4 apply contains_skip. apply contains_prefix.
  - do 6 apply contains_skip. apply contains_prefix.
  - do 8 apply contains_skip.
    exists ""%string, ".png"%string. simpl. rewrite append_assoc. reflexivity.
Qed.

Example sample_filename :
  download_name Samples.repr_tenths "std_dev" s1 (PyInt 10) 7
  = "std_dev_Sensor_s1_RPM_10-10.5_MA_7days.png"%string
  /\ download_name Samples.repr_tenths "rms" s4 (PyFloat (5 # 2)) 30
     = "rms_Sensor_s4_RPM_2.5-3.0_MA_30days.png"%string
  /\ download_graph Samples.repr_tenths None "rms" s4 (PyInt 3) 1 Samples.blank_figure
     = None.
Proof. repeat split. Qed.

Lemma download_graph_export_witness :
  exists d, on_download Samples.repr_tenths Samples.page = Some d
            /\ source (content d) = Samples.blank_figure
            /\ format (content d) = "png"%string
            /\ width (content d) = 1920
            /\ height_px (content d) = 1080
            /\ scale (content d) = 2%Q
            /\ contains "std_dev" (filename d)
            /\ contains "s1" (filename d)
            /\ contains "10" (filename d)
            /\ contains "10.5" (filename d)
            /\ contains "7days" (filename d).
Proof.
  apply (download_graph_export Samples.repr_tenths Samples.page). reflexivity.
Defined.

End MetricsFacts.

(** ** The weekly heatmap *)
Module CorruptionFacts.
Import Py Calendar Frame Corruption.

Ltac Zify.zify_post_hook ::= Z.div_mod_to_equations.

(** *** Reading and writing a cell *)

Lemma mget_full {A : Type} (rows cols row col : nat) (a : A) :
  (row < rows)%nat -> (col < cols)%nat -> mget row col (full rows cols a) = Some a.
Proof.
  intros Hr Hc. unfold mget, full.
  rewrite lookup_replicate_2 by exact Hr. apply lookup_replicate_2; exact Hc.
Qed.

Lemma mget_mset_eq {A : Type} (row col : nat) (v : A) (m : Matrix A) :
  is_Some (mget row col m) -> mget row col (mset row col v m) = Some v.
Proof.
  unfold mget, mset. intros [old Hold]. rewrite list_lookup_alter_eq.
  destruct (m !! row) as [r|]; simpl in *; [|discriminate].
  apply list_lookup_insert_eq. eapply lookup_lt_Some; exact Hold.
Qed.

Lemma mget_mset_ne {A : Type} (row col row' col' : nat) (v : A) (m : Matrix A) :
  (row', col') <> (row, col) -> mget row' col' (mset row col v m) = mget row' col' m.
Proof.
  unfold mget, mset. intros Hne. destruct (decide (row = row')) as [<-|Hrow].
  - rewrite list_lookup_alter_eq. destruct (m !! row) as [r|]; simpl; [|reflexivity].
    apply list_lookup_insert_ne. congruence.
  - rewrite list_lookup_alter_ne by exact Hrow. reflexivity.
Qed.

(** *** The loop over the 53 weeks *)

Lemma loop_succ (stats : list WeekStat) (n : nat) :
  loop stats (S n) = populate stats (loop stats n) n.
Proof. unfold loop. rewrite seq_S, fold_left_app. reflexivity. Qed.

(** After [n] steps, the cell that step [k] writes holds the entry of
    week [k + 1] if [k < n], and is as it was created otherwise. *)
Lemma loop_cells (stats : list WeekStat) (n row col : nat) :
  (n <= 56)%nat -> (row < 7)%nat -> (col < 8)%nat ->
  mget row col (fst (loop stats n)) = Some (data_written stats n (8 * (6 - row) + col))
  /\ mget row col (snd (loop stats n)) = Some (text_written stats n (8 * (6 - row) + col)).
Proof.
  intros Hn Hrow Hcol. induction n as [|n IH].
  - split; apply mget_full; assumption.
  - destruct IH as [IHd IHt]; [lia|]. rewrite loop_succ.
    unfold populate, data_written, text_written in *.
    set (k := (8 * (6 - row) + col)%nat) in *.
    destruct (Nat.ltb_spec n (length stats)) as [Hlt|Hge].
    + destruct (lookup_lt_is_Some_2 stats n Hlt) as [s Hs]. rewrite Hs.
      cbv beta zeta. cbn [fst snd].
      destruct (decide (k = n)) as [Hk|Hk].
      * assert (Hcell : (6 - n / 8 = row /\ n mod 8 = col)%nat) by (subst k; lia).
        destruct Hcell as [-> ->]. rewrite Hk in *.
        rewrite !mget_mset_eq by (rewrite ?IHd, ?IHt; eauto).
        rewrite (proj2 (Nat.ltb_lt n (S n))) by lia. rewrite Hs. auto.
      * assert (Hne : (row, col) <> ((6 - n / 8)%nat, (n mod 8)%nat)).
        { intros Heq. pose proof (f_equal fst Heq) as Hr.
          pose proof (f_equal snd Heq) as Hc. cbn [fst snd] in Hr, Hc.
          subst k. lia. }
        rewrite !mget_mset_ne by exact Hne.
        rewrite IHd, IHt.
        destruct (Nat.ltb_spec k n), (Nat.ltb_spec k (S n)); auto; lia.
    + rewrite IHd, IHt. pose proof (lookup_ge_None_2 stats n Hge) as Hnone.
      destruct (Nat.ltb_spec k n), (Nat.ltb_spec k (S n)); auto; try lia.
      assert (k = n) as -> by lia. rewrite Hnone. auto.
Qed.

Lemma matrices_cells (stats : list WeekStat) (row col : nat) :
  (row < 7)%nat -> (col < 8)%nat ->
  mget row col (fst (matrices stats)) = Some (data_written stats 53 (8 * (6 - row) + col))
  /\ mget row col (snd (matrices stats)) = Some (text_written stats 53 (8 * (6 - row) + col)).
Proof.
  intros Hrow Hcol. unfold matrices.
  apply loop_cells; [lia | assumption | assumption].
Qed.


(** The grid keeps its seven rows of eight cells. *)
Lemma full_is_grid {A : Type} (a : A) : is_grid (full 7 8 a).
Proof. split; [reflexivity | repeat constructor]. Qed.

Lemma mset_is_grid {A : Type} (row col : nat) (v : A) (m : Matrix A) :
  is_grid m -> is_grid (mset row col v m).
Proof.
  intros [Hlen Hrows]. unfold mset. split.
  - rewrite length_alter. exact Hlen.
  - apply Forall_alter; [exact Hrows|]. intros r _ Hr. rewrite length_insert. exact Hr.
Qed.

Lemma loop_is_grid (stats : list WeekStat) (n : nat) :
  is_grid (fst (loop stats n)) /\ is_grid (snd (loop stats n)).
Proof.
  induction n as [|n [IHd IHt]].
  - split; apply full_is_grid.
  - rewrite loop_succ. unfold populate.
    destruct (n <? length stats)%nat; [|auto].
    destruct (stats !! n); [|auto].
    split; apply mset_is_grid; assumption.
Qed.

(** *** Grouping by week *)

Lemma insert_key_In (k x : Z) (l : list Z) :
  In x (insert_key k l) <-> x = k \/ In x l.
Proof.
  induction l as [|a l IH]; simpl; [intuition|].
  destruct (Z.ltb_spec k a); simpl; [intuition|].
  destruct (Z.eqb_spec k a); simpl; [subst; intuition|].
  rewrite IH. intuition.
Qed.

Lemma group_keys_In (x : Z) (ks : list Z) : In x (group_keys ks) <-> In x ks.
Proof.
  induction ks as [|k ks IH]; simpl; [tauto|].
  rewrite insert_key_In, IH. intuition.
Qed.

Lemma insert_key_sorted (k : Z) (l : list Z) :
  StronglySorted Z.lt l -> StronglySorted Z.lt (insert_key k l).
Proof.
  induction 1 as [|a l Hs IH Hall]; simpl; [repeat constructor|].
  destruct (Z.ltb_spec k a).
  - constructor; [constructor; assumption|]. constructor; [assumption|].
    eapply List.Forall_impl; [|exact Hall]. intros; lia.
  - destruct (Z.eqb_spec k a); [constructor; assumption|].
    constructor; [exact IH|]. apply List.Forall_forall. intros x Hx.
    apply insert_key_In in Hx as [->|Hx]; [lia|].
    rewrite List.Forall_forall in Hall. auto.
Qed.

Lemma group_keys_sorted (ks : list Z) : StronglySorted Z.lt (group_keys ks).
Proof.
  induction ks as [|k ks IH]; simpl; [constructor | apply insert_key_sorted, IH].
Qed.

Lemma group_keys_NoDup (ks : list Z) : List.NoDup (group_keys ks).
Proof.
  pose proof (group_keys_sorted ks) as H.
  induction H as [|a l Hs IH Hall]; constructor; [|exact IH].
  intros Hin. rewrite List.Forall_forall in Hall. specialize (Hall a Hin). lia.
Qed.

Lemma filter_key_absent (w : Z) (l : list Z) :
  ~ In w l -> List.filter (fun k => k =? w) l = [].
Proof.
  induction l as [|a l IH]; simpl; intros Hn; [reflexivity|].
  destruct (Z.eqb_spec a w); [exfalso; auto | apply IH; auto].
Qed.

Lemma filter_key_present (w : Z) (l : list Z) :
  List.NoDup l -> In w l -> List.filter (fun k => k =? w) l = [w].
Proof.
  induction 1 as [|a l Hnotin Hnd IH]; simpl; [tauto|]. intros Hin.
  destruct (Z.eqb_spec a w) as [->|Hne].
  - rewrite filter_key_absent by exact Hnotin. reflexivity.
  - apply IH. destruct Hin; [contradiction | assumption].
Qed.


(** *** The statistics of a week *)

Lemma year_rows_week (m : FlagFrame) (year : Z) (sensor : Channel * Sensor) (w : Z) :
  List.filter (fun r => week r =? w) (year_rows m year sensor)
  = map (with_columns sensor) (week_rows m year w).
Proof.
  unfold year_rows, week_rows. rewrite filter_map_swap. f_equal. simpl.
  induction m as [|r m IH]; simpl; [reflexivity|].
  destruct (dt_year (time r) =? year); simpl; [|exact IH].
  destruct (dt_week (time r) =? w); simpl; rewrite IH; reflexivity.
Qed.

Lemma corrupted_sum (sensor : Channel * Sensor) (rows : FlagFrame) :
  sum_Z (map is_corrupted (map (with_columns sensor) rows))
  = Z.of_nat (length (List.filter
                        (fun r => match data r (fst sensor) (snd sensor) with
                                  | Some f => f =? 1
                                  | None => false
                                  end) rows)).
Proof.
  induction rows as [|r rows IH]; [reflexivity|].
  simpl map. simpl sum_Z. rewrite IH. simpl List.filter. unfold flag_is_one.
  destruct (data r (fst sensor) (snd sensor)) as [f|]; [|simpl; lia].
  destruct (f =? 1); simpl length; lia.
Qed.

Lemma week_in_keys (m : FlagFrame) (year : Z) (sensor : Channel * Sensor) (w : Z) :
  In w (map week (year_rows m year sensor)) <-> week_total m year w <> 0.
Proof.
  unfold week_total. split.
  - intros Hin. apply in_map_iff in Hin as (r & Hw & Hr).
    assert (Hf : In r (List.filter (fun r => week r =? w) (year_rows m year sensor))).
    { apply filter_In. split; [exact Hr | apply Z.eqb_eq; exact Hw]. }
    rewrite year_rows_week in Hf. destruct (week_rows m year w); [destruct Hf|].
    simpl. lia.
  - intros Hne. destruct (week_rows m year w) as [|r rows] eqn:Hrows; [simpl in Hne; lia|].
    assert (Hf : In (with_columns sensor r)
                    (List.filter (fun r => week r =? w) (year_rows m year sensor))).
    { rewrite year_rows_week, Hrows. left. reflexivity. }
    apply filter_In in Hf as [Hin Hw]. apply Z.eqb_eq in Hw.
    apply in_map_iff. eauto.
Qed.

Lemma group_stats_week (df_year : list YearRow) (w : Z) :
  List.filter (fun s => stat_week s =? w) (group_stats df_year)
  = map (fun k =>
           let group := List.filter (fun r => week r =? k) df_year in
           {| stat_week := k;
              stat_id := Z.of_nat (length group);
              stat_is_corrupted := sum_Z (map is_corrupted group);
              corruption_percentage :=
                (inject_Z (sum_Z (map is_corrupted group))
                 / inject_Z (Z.of_nat (length group)) * 100)%Q |})
        (List.filter (fun k => k =? w) (group_keys (map week df_year))).
Proof. unfold group_stats. rewrite filter_map_swap. reflexivity. Qed.

(** The left join on the weeks gives one row for each week it is asked
    for, and filling the gaps gives the statistics of that week. *)
Lemma join_week_entry (m : FlagFrame) (year : Z) (sensor : Channel * Sensor) (w : Z) :
  map fillna (join_week (group_stats (year_rows m year sensor)) w)
  = [week_entry m year sensor w].
Proof.
  unfold join_week. rewrite group_stats_week.
  destruct (Z.eq_dec (week_total m year w) 0) as [Hzero|Hpos].
  - rewrite filter_key_absent by (rewrite group_keys_In, week_in_keys; tauto). simpl.
    unfold fillna, week_entry, week_percentage, week_corrupted. simpl.
    rewrite Hzero. simpl.
    unfold week_total in Hzero. destruct (week_rows m year w); [reflexivity|].
    simpl in Hzero. lia.
  - rewrite filter_key_present
      by (apply group_keys_NoDup || (apply group_keys_In, week_in_keys; exact Hpos)).
    simpl. unfold fillna, week_entry, week_percentage. simpl.
    rewrite year_rows_week, corrupted_sum, length_map.
    fold (week_total m year w). fold (week_corrupted m year sensor w).
    destruct (Z.eqb_spec (week_total m year w) 0); [contradiction | reflexivity].
Qed.

Lemma weekly_rows (m : FlagFrame) (year : Z) (sensor : Channel * Sensor) (weeks : list Z) :
  map fillna (merge_left weeks (group_stats (year_rows m year sensor)))
  = map (week_entry m year sensor) weeks.
Proof.
  unfold merge_left. induction weeks as [|w weeks IH]; [reflexivity|].
  simpl. rewrite map_app, IH, join_week_entry. reflexivity.
Qed.

Lemma weekly_stats_rows (m : FlagFrame) (year : Z) (sensor : Channel * Sensor) :
  weekly_stats (year_rows m year sensor) = map (week_entry m year sensor) all_weeks.
Proof. apply weekly_rows. Qed.

Lemma weekly_stats_lookup (m : FlagFrame) (year : Z) (sensor : Channel * Sensor) (k : nat) :
  (k < 53)%nat ->
  weekly_stats (year_rows m year sensor) !! k
  = Some (week_entry m year sensor (Z.of_nat k + 1)).
Proof.
  intros Hk. rewrite weekly_stats_rows, list_lookup_fmap. unfold all_weeks.
  rewrite lookup_seqZ_lt by lia. simpl. f_equal. f_equal. lia.
Qed.

Lemma weekly_stats_length (m : FlagFrame) (year : Z) (sensor : Channel * Sensor) :
  length (weekly_stats (year_rows m year sensor)) = 53%nat.
Proof. rewrite weekly_stats_rows, length_map. reflexivity. Qed.

(** *** Bounds *)

Lemma week_counts (m : FlagFrame) (year : Z) (sensor : Channel * Sensor) (w : Z) :
  0 <= week_corrupted m year sensor w <= week_total m year w.
Proof.
  unfold week_corrupted, week_total.
  pose proof (filter_length_le
                (fun r => match data r (fst sensor) (snd sensor) with
                          | Some f => f =? 1
                          | None => false
                          end) (week_rows m year w)).
  lia.
Qed.

Lemma percentage_bounds (c t : Z) :
  0 <= c <= t -> 0 < t ->
  (0 <= inject_Z c / inject_Z t * 100)%Q /\ (inject_Z c / inject_Z t * 100 <= 100)%Q.
Proof.
  intros Hc Ht. destruct t as [|p|p]; try lia.
  unfold Qle, Qdiv, Qmult, Qinv, inject_Z; simpl. split; nia.
Qed.

Lemma week_percentage_bounds (m : FlagFrame) (year : Z) (sensor : Channel * Sensor) (w : Z) :
  (0 <= week_percentage m year sensor w)%Q /\ (week_percentage m year sensor w <= 100)%Q.
Proof.
  unfold week_percentage. destruct (Z.eqb_spec (week_total m year w) 0) as [Hz|Hnz].
  - split; unfold Qle; simpl; lia.
  - apply percentage_bounds; pose proof (week_counts m year sensor w); lia.
Qed.


(** *** The figure *)

Lemma heatmap_matrices (m : FlagFrame) (year : Z) (sensor : Channel * Sensor) :
  z (trace (update_heatmap m year sensor))
  = fst (matrices (weekly_stats (year_rows m year sensor)))
  /\ text (trace (update_heatmap m year sensor))
     = snd (matrices (weekly_stats (year_rows m year sensor))).
Proof.
  unfold update_heatmap.
  destruct (matrices (weekly_stats (year_rows m year sensor))). split; reflexivity.
Qed.

(** The cell that step [k] writes, for [k] below 53, holds week [k + 1]. *)
Lemma heatmap_written_cell (m : FlagFrame) (year : Z) (sensor : Channel * Sensor)
      (row col : nat) :
  (row < 7)%nat -> (col < 8)%nat -> (8 * (6 - row) + col < 53)%nat ->
  let w := Z.of_nat (8 * (6 - row) + col) + 1 in
  mget row col (z (trace (update_heatmap m year sensor)))
  = Some (week_percentage m year sensor w)
  /\ mget row col (text (trace (update_heatmap m year sensor)))
     = Some (Some (cell_text w (week_total m year w) (week_corrupted m year sensor w))).
Proof.
  intros Hrow Hcol Hk w. destruct (heatmap_matrices m year sensor) as [-> ->].
  destruct (matrices_cells (weekly_stats (year_rows m year sensor)) row col Hrow Hcol)
    as [-> ->].
  unfold data_written, text_written.
  rewrite (proj2 (Nat.ltb_lt _ 53) Hk), weekly_stats_lookup by exact Hk.
  split; reflexivity.
Qed.

(** The cells of steps 53, 54 and 55 are as they were created, after any
    number of steps of the loop. *)
Lemma loop_unwritten_cell (stats : list WeekStat) (n row col : nat) :
  (n <= 53)%nat -> (row < 7)%nat -> (col < 8)%nat -> (53 <= 8 * (6 - row) + col)%nat ->
  mget row col (fst (loop stats n)) = Some 0%Q
  /\ mget row col (snd (loop stats n)) = Some None.
Proof.
  intros Hn Hrow Hcol Hk.
  destruct (loop_cells stats n row col) as [-> ->]; [lia | assumption | assumption |].
  unfold data_written, text_written.
  destruct (Nat.ltb_spec (8 * (6 - row) + col) n); [lia|]. split; reflexivity.
Qed.

Lemma grid_cells_In (row col : nat) :
  In (row, col) grid_cells <-> (row < 7)%nat /\ (col < 8)%nat.
Proof.
  unfold grid_cells. rewrite in_flat_map. split.
  - intros (r & Hr & Hc). apply in_map_iff in Hc as (c & [= <- <-] & Hc).
    apply in_seq in Hr, Hc. lia.
  - intros [Hr Hc]. exists row. split; [apply in_seq; lia|].
    apply in_map_iff. exists col. split; [reflexivity | apply in_seq; lia].
Qed.

Lemma populated_test (m : FlagFrame) (year : Z) (sensor : Channel * Sensor)
      (cell : nat * nat) :
  In cell grid_cells ->
  is_populated (text (trace (update_heatmap m year sensor))) cell
  = (8 * (6 - fst cell) + snd cell <? 53)%nat.
Proof.
  destruct cell as [row col]. intros Hin. apply grid_cells_In in Hin as [Hrow Hcol].
  unfold is_populated. cbn [fst snd].
  destruct (Nat.ltb_spec (8 * (6 - row) + col) 53) as [Hk|Hk].
  - destruct (heatmap_written_cell m year sensor row col Hrow Hcol Hk) as [_ ->].
    reflexivity.
  - destruct (heatmap_matrices m year sensor) as [_ ->]. unfold matrices.
    destruct (loop_unwritten_cell (weekly_stats (year_rows m year sensor)) 53 row col)
      as [_ ->]; [lia | assumption | assumption | assumption | reflexivity].
Qed.

Lemma populated_cells_grid (m : FlagFrame) (year : Z) (sensor : Channel * Sensor) :
  populated_cells (text (trace (update_heatmap m year sensor)))
  = List.filter (fun cell => (8 * (6 - fst cell) + snd cell <? 53)%nat) grid_cells.
Proof. unfold populated_cells. apply filter_ext_in. apply populated_test. Qed.

Lemma week_cell_index (w : Z) :
  1 <= w <= 53 ->
  let row := fst (week_cell w) in
  let col := snd (week_cell w) in
  (row < 7)%nat /\ (col < 8)%nat /\ Z.of_nat (8 * (6 - row) + col) + 1 = w.
Proof. intros Hw. unfold week_cell. cbn [fst snd]. lia. Qed.

Lemma week_cell_of_index (row col : nat) :
  (row < 7)%nat -> (col < 8)%nat ->
  week_cell (Z.of_nat (8 * (6 - row) + col) + 1) = (row, col).
Proof. intros Hrow Hcol. unfold week_cell. f_equal; lia. Qed.


Example sample_years : years Samples.joined_flags = [2021; 2024].
Proof. reflexivity. Qed.

(** The sample of 2021-01-01 lies in week 53, so the heatmap of 2021 shows
    it in the cell of week 53, row 0, column 4. *)
Example sample_week_53 :
  mget 0 4 (text (trace (update_heatmap Samples.joined_flags 2021 (ch2, s1))))
  = Some (Some "Week 53<br>1 total<br>1 corrupted"%string)
  /\ mget 0 4 (z (trace (update_heatmap Samples.joined_flags 2021 (ch2, s1))))
     = Some (100 # 1)%Q.
Proof. split; vm_compute; reflexivity. Qed.

Lemma heatmap_scale (m : FlagFrame) (year : Z) (sensor : Channel * Sensor) :
  zmin (trace (update_heatmap m year sensor)) = 0%Q
  /\ zmax (trace (update_heatmap m year sensor)) = 100%Q
  /\ colorscale (trace (update_heatmap m year sensor))
     = [(0, "green"); (1 # 2, "yellow"); (1, "red")]%Q%string.
Proof.
  unfold update_heatmap.
  destruct (matrices (weekly_stats (year_rows m year sensor))). repeat split.
Qed.

(** C2.  For a week [w] from 1 to 53, the cell in row [6 - (w - 1) / 8] and
    column [(w - 1) mod 8] of the heatmap holds the percentage of week [w]
    and the text of week [w]; week 1 is at row 6, column 0, and week 53 at
    row 0, column 4. *)
Theorem week_value_cell (m : FlagFrame) (year : Z) (sensor : Channel * Sensor) (w : Z) :
  1 <= w <= 53 ->
  let fig := update_heatmap m year sensor in
  let row := fst (week_cell w) in
  let col := snd (week_cell w) in
  mget row col (z (trace fig)) = Some (week_percentage m year sensor w)
  /\ mget row col (text (trace fig))
     = Some (Some (cell_text w (week_total m year w) (week_corrupted m year sensor w)))
  /\ week_cell 1 = (6%nat, 0%nat)
  /\ week_cell 53 = (0%nat, 4%nat).
Proof.
  intros Hw fig row col.
  destruct (week_cell_index w Hw) as (Hrow & Hcol & Hindex).
  fold row col in Hrow, Hcol, Hindex.
  assert (Hk : (8 * (6 - row) + col < 53)%nat) by lia.
  pose proof (heatmap_written_cell m year sensor row col Hrow Hcol Hk) as Hcell.
  cbv zeta in Hcell. rewrite Hindex in Hcell.
  destruct Hcell as [Hz Ht]. repeat split; assumption || reflexivity.
Qed.

Lemma week_value_cell_witness :
  let fig := update_heatmap Samples.joined_flags 2024 (ch1, s1) in
  mget 6 0 (z (trace fig)) = Some (200 # 3)%Q
  /\ mget 6 0 (text (trace fig)) = Some (Some "Week 1<br>3 total<br>2 corrupted"%string)
  /\ week_cell 1 = (6%nat, 0%nat)
  /\ week_cell 53 = (0%nat, 4%nat).
Proof.
  apply (week_value_cell Samples.joined_flags 2024 (ch1, s1) 1). lia.
Defined.

(** C3.  The heatmap of any year and selector is a grid of seven rows of
    eight cells; 53 of its cells carry a text, and they are the cells of
    the weeks 1 to 53; the cell of week [w] shows the number of rows of
    that week, the number of them that are flagged, and their percentage,
    with total >= corrupted >= 0 and the percentage from 0 to 100; a week
    without rows shows zero for all three. *)
Theorem weekly_grid (m : FlagFrame) (year : Z) (sensor : Channel * Sensor) :
  let fig := update_heatmap m year sensor in
  is_grid (z (trace fig))
  /\ is_grid (text (trace fig))
  /\ length (populated_cells (text (trace fig))) = 53%nat
  /\ (forall row col,
        In (row, col) (populated_cells (text (trace fig)))
        <-> exists w, 1 <= w <= 53 /\ week_cell w = (row, col))
  /\ (forall w, 1 <= w <= 53 ->
        mget (fst (week_cell w)) (snd (week_cell w)) (text (trace fig))
        = Some (Some (cell_text w (week_total m year w) (week_corrupted m year sensor w)))
        /\ mget (fst (week_cell w)) (snd (week_cell w)) (z (trace fig))
           = Some (week_percentage m year sensor w)
        /\ 0 <= week_corrupted m year sensor w <= week_total m year w
        /\ (0 <= week_percentage m year sensor w)%Q
        /\ (week_percentage m year sensor w <= 100)%Q
        /\ (week_rows m year w = [] ->
            week_total m year w = 0 /\ week_corrupted m year sensor w = 0
            /\ week_percentage m year sensor w = 0%Q)).
Proof.
  intros fig. subst fig. split; [|split; [|split; [|split]]].
  - destruct (heatmap_matrices m year sensor) as [-> _]. apply loop_is_grid.
  - destruct (heatmap_matrices m year sensor) as [_ ->]. apply loop_is_grid.
  - rewrite populated_cells_grid. reflexivity.
  - intros row col. rewrite populated_cells_grid, filter_In, grid_cells_In.
    cbn [fst snd]. rewrite Nat.ltb_lt. split.
    + intros [[Hrow Hcol] Hk]. exists (Z.of_nat (8 * (6 - row) + col) + 1).
      split; [lia | apply week_cell_of_index; assumption].
    + intros (w & Hw & Hcell). destruct (week_cell_index w Hw) as (Hrow & Hcol & Hindex).
      rewrite Hcell in Hrow, Hcol, Hindex. cbn [fst snd] in Hrow, Hcol, Hindex. lia.
  - intros w Hw. destruct (week_cell_index w Hw) as (Hrow & Hcol & Hindex).
    assert (Hk : (8 * (6 - fst (week_cell w)) + snd (week_cell w) < 53)%nat) by lia.
    pose proof (heatmap_written_cell m year sensor _ _ Hrow Hcol Hk) as Hcell.
    cbv zeta in Hcell. rewrite Hindex in Hcell. destruct Hcell as [Hz Ht].
    split; [exact Ht|]. split; [exact Hz|]. split; [apply week_counts|].
    split; [apply week_percentage_bounds|]. split; [apply week_percentage_bounds|].
    intros Hnone. unfold week_percentage, week_corrupted, week_total.
    rewrite Hnone. repeat split.
Qed.

Lemma weekly_grid_witness :
  let fig := update_heatmap Samples.joined_flags 2024 (ch1, s1) in
  is_grid (z (trace fig))
  /\ is_grid (text (trace fig))
  /\ length (populated_cells (text (trace fig))) = 53%nat
  /\ mget 6 1 (text (trace fig)) = Some (Some "Week 2<br>1 total<br>1 corrupted"%string)
  /\ mget 6 1 (z (trace fig)) = Some (100 # 1)%Q
  /\ mget 6 2 (text (trace fig)) = Some (Some "Week 3<br>0 total<br>0 corrupted"%string)
  /\ mget 6 2 (z (trace fig)) = Some 0%Q.
Proof.
  destruct (weekly_grid Samples.joined_flags 2024 (ch1, s1))
    as (Hz & Ht & Hlen & _ & Hweek).
  destruct (Hweek 2) as (Ht2 & Hz2 & _); [lia|].
  destruct (Hweek 3) as (Ht3 & Hz3 & _); [lia|].
  exact (conj Hz (conj Ht (conj Hlen (conj Ht2 (conj Hz2 (conj Ht3 Hz3)))))).
Defined.

(** C9.  The cells of indices 53, 54 and 55 are row 0, columns 5, 6 and 7.
    However many steps the loop has run, their value is the initial 0 and
    their text is unset, and so they are in the finished figure.  A week
    whose percentage is zero has the same value, hence the same place on
    the colour scale: its start, green. *)
Theorem blank_cells_unwritten (m : FlagFrame) (year : Z) (sensor : Channel * Sensor)
        (i : nat) :
  (53 <= i <= 55)%nat ->
  let fig := update_heatmap m year sensor in
  let stats := weekly_stats (year_rows m year sensor) in
  let row := (6 - i / 8)%nat in
  let col := (i mod 8)%nat in
  row = 0%nat /\ (5 <= col <= 7)%nat
  /\ (forall n, (n <= 53)%nat ->
                mget row col (fst (loop stats n)) = Some 0%Q
                /\ mget row col (snd (loop stats n)) = Some None)
  /\ mget row col (z (trace fig)) = Some 0%Q
  /\ mget row col (text (trace fig)) = Some None
  /\ (forall w, 1 <= w <= 53 -> (week_percentage m year sensor w == 0)%Q ->
        exists p, mget (fst (week_cell w)) (snd (week_cell w)) (z (trace fig)) = Some p
                  /\ (scale_position (trace fig) p == scale_position (trace fig) 0)%Q)
  /\ (scale_position (trace fig) 0 == 0)%Q
  /\ head (colorscale (trace fig)) = Some (0%Q, "green"%string).
Proof.
  intros Hi fig stats row col.
  assert (Hrow : (row < 7)%nat) by (subst row; lia).
  assert (Hcol : (col < 8)%nat) by (subst col; lia).
  assert (Hk : (53 <= 8 * (6 - row) + col)%nat) by (subst row col; lia).
  destruct (heatmap_scale m year sensor) as (Hmin & Hmax & Hscale).
  split; [subst row; lia|]. split; [subst col; lia|].
  split; [intros n Hn; apply loop_unwritten_cell; assumption|].
  subst fig. destruct (heatmap_matrices m year sensor) as [Hz Ht].
  split; [rewrite Hz; apply (loop_unwritten_cell stats 53); assumption || lia|].
  split; [rewrite Ht; apply (loop_unwritten_cell stats 53); assumption || lia|].
  split; [|split].
  - intros w Hw Hzero. exists (week_percentage m year sensor w).
    destruct (week_cell_index w Hw) as (Hr & Hc & Hindex).
    assert (Hlt : (8 * (6 - fst (week_cell w)) + snd (week_cell w) < 53)%nat) by lia.
    pose proof (heatmap_written_cell m year sensor _ _ Hr Hc Hlt) as Hcell.
    cbv zeta in Hcell. rewrite Hindex in Hcell. destruct Hcell as [Hcell _].
    split; [exact Hcell|]. unfold scale_position. rewrite Hzero. reflexivity.
  - unfold scale_position. rewrite Hmin, Hmax. reflexivity.
  - rewrite Hscale. reflexivity.
Qed.

Lemma blank_cells_unwritten_witness :
  let fig := update_heatmap Samples.joined_flags 2024 (ch1, s1) in
  mget 0 5 (z (trace fig)) = Some 0%Q
  /\ mget 0 5 (text (trace fig)) = Some None
  /\ (scale_position (trace fig) 0 == 0)%Q.
Proof.
  destruct (blank_cells_unwritten Samples.joined_flags 2024 (ch1, s1) 53)
    as (_ & _ & _ & Hz & Ht & _ & Hplace & _); [lia|].
  exact (conj Hz (conj Ht Hplace)).
Defined.

End CorruptionFacts.

(** ** More on the calendar *)
Module CalendarRange.
Import Py Calendar.

Ltac Zify.zify_post_hook ::= Z.div_mod_to_equations.

Lemma days_before_year_step (year : Z) :
  365 <= days_before_year (year + 1) - days_before_year year <= 366.
Proof. unfold days_before_year. cbv zeta. lia. Qed.

(** Within a cycle of 400 years: the days before the year that follows
    [400 a + 100 b + 4 c + e] whole years. *)
Lemma days_before_year_cycle (a b c e : Z) :
  0 <= b <= 3 -> 0 <= c <= 24 -> 0 <= e <= 3 ->
  days_before_year (400 * a + 100 * b + 4 * c + e + 1)
  = 146097 * a + 36524 * b + 1461 * c + 365 * e.
Proof.
  intros Hb Hc He. unfold days_before_year. cbv zeta.
  replace (400 * a + 100 * b + 4 * c + e + 1 - 1) with (400 * a + 100 * b + 4 * c + e)
    by ring.
  rewrite <- (Z.div_unique (400 * a + 100 * b + 4 * c + e) 4 (100 * a + 25 * b + c) e)
    by (try left; lia).
  rewrite <- (Z.div_unique (400 * a + 100 * b + 4 * c + e) 100 (4 * a + b) (4 * c + e))
    by (try left; lia).
  rewrite <- (Z.div_unique (400 * a + 100 * b + 4 * c + e) 400 a (100 * b + 4 * c + e))
    by (try left; lia).
  ring.
Qed.

(** A day lies in the year that [ord2year] gives for it: after the last
    day before that year, and not after the last day of that year. *)
Lemma ord2year_spec (n : Z) :
  days_before_year (ord2year n) < n <= days_before_year (ord2year n + 1).
Proof.
  unfold ord2year. cbv zeta.
  pose proof (Z.div_mod (n - 1) 146097 ltac:(discriminate)) as E1.
  pose proof (Z.mod_pos_bound (n - 1) 146097 ltac:(reflexivity)) as B1.
  revert E1 B1. generalize ((n - 1) / 146097) ((n - 1) mod 146097). intros a r1 E1 B1.
  pose proof (Z.div_mod r1 36524 ltac:(discriminate)) as E2.
  pose proof (Z.mod_pos_bound r1 36524 ltac:(reflexivity)) as B2.
  revert E2 B2. generalize (r1 / 36524) (r1 mod 36524). intros b r2 E2 B2.
  pose proof (Z.div_mod r2 1461 ltac:(discriminate)) as E3.
  pose proof (Z.mod_pos_bound r2 1461 ltac:(reflexivity)) as B3.
  revert E3 B3. generalize (r2 / 1461) (r2 mod 1461). intros c r3 E3 B3.
  pose proof (Z.div_mod r3 365 ltac:(discriminate)) as E4.
  pose proof (Z.mod_pos_bound r3 365 ltac:(reflexivity)) as B4.
  revert E4 B4. generalize (r3 / 365) (r3 mod 365). intros e r4 E4 B4.
  assert (Hb : 0 <= b <= 4) by lia.
  assert (Hc : 0 <= c <= 24) by lia.
  assert (He : 0 <= e <= 4) by lia.
  destruct (Z.eqb_spec b 4) as [Hb4|Hb4].
  - rewrite orb_true_r.
    assert (c = 0 /\ e = 0 /\ r4 = 0) as (-> & -> & ->) by lia. subst b.
    replace (a * 400 + 1 + 4 * 100 + 0 * 4 + 0 - 1)
      with (400 * a + 100 * 3 + 4 * 24 + 3 + 1) by ring.
    rewrite (days_before_year_cycle a 3 24 3) by lia.
    replace (400 * a + 100 * 3 + 4 * 24 + 3 + 1 + 1)
      with (400 * (a + 1) + 100 * 0 + 4 * 0 + 0 + 1) by ring.
    rewrite (days_before_year_cycle (a + 1) 0 0 0) by lia. lia.
  - rewrite orb_false_r. destruct (Z.eqb_spec e 4) as [He4|He4].
    + subst e. assert (c <= 23) by lia.
      replace (a * 400 + 1 + b * 100 + c * 4 + 4 - 1)
        with (400 * a + 100 * b + 4 * c + 3 + 1) by ring.
      rewrite (days_before_year_cycle a b c 3) by lia.
      replace (400 * a + 100 * b + 4 * c + 3 + 1 + 1)
        with (400 * a + 100 * b + 4 * (c + 1) + 0 + 1) by ring.
      rewrite (days_before_year_cycle a b (c + 1) 0) by lia. lia.
    + replace (a * 400 + 1 + b * 100 + c * 4 + e)
        with (400 * a + 100 * b + 4 * c + e + 1) by ring.
      pose proof (days_before_year_cycle a b c e ltac:(lia) ltac:(lia) ltac:(lia)) as Hy.
      assert (Hnext : days_before_year (400 * a + 100 * b + 4 * c + e + 1) + 365
                      <= days_before_year (400 * a + 100 * b + 4 * c + e + 1 + 1)).
      { destruct (Z.eq_dec e 3) as [->|He3].
        - destruct (Z.eq_dec c 24) as [->|Hc24].
          + destruct (Z.eq_dec b 3) as [->|Hb3].
            * replace (400 * a + 100 * 3 + 4 * 24 + 3 + 1 + 1)
                with (400 * (a + 1) + 100 * 0 + 4 * 0 + 0 + 1) by ring.
              rewrite (days_before_year_cycle (a + 1) 0 0 0) by lia. lia.
            * replace (400 * a + 100 * b + 4 * 24 + 3 + 1 + 1)
                with (400 * a + 100 * (b + 1) + 4 * 0 + 0 + 1) by ring.
              rewrite (days_before_year_cycle a (b + 1) 0 0) by lia. lia.
          + replace (400 * a + 100 * b + 4 * c + 3 + 1 + 1)
              with (400 * a + 100 * b + 4 * (c + 1) + 0 + 1) by ring.
            rewrite (days_before_year_cycle a b (c + 1) 0) by lia. lia.
        - replace (400 * a + 100 * b + 4 * c + e + 1 + 1)
            with (400 * a + 100 * b + 4 * c + (e + 1) + 1) by ring.
          rewrite (days_before_year_cycle a b c (e + 1)) by lia. lia. }
      lia.
Qed.

(** The first day of ISO week 1 is a Monday at most three days from the
    first of January. *)
Lemma isoweek1monday_spec (year : Z) :
  days_before_year year - 2 <= isoweek1monday year <= days_before_year year + 4
  /\ (isoweek1monday year + 6) mod 7 = 0.
Proof.
  unfold isoweek1monday. cbv zeta. generalize (days_before_year year). intros d.
  destruct (Z.ltb_spec 3 ((d + 1 + 6) mod 7)); lia.
Qed.

Lemma isocalendar_week_range (today : Z) : 1 <= isocalendar_week today <= 53.
Proof.
  unfold isocalendar_week. cbv zeta.
  pose proof (ord2year_spec today) as Hy.
  pose proof (days_before_year_step (ord2year today)) as Hnext.
  pose proof (days_before_year_step (ord2year today - 1)) as Hprev.
  replace (ord2year today - 1 + 1) with (ord2year today) in Hprev by lia.
  pose proof (isoweek1monday_spec (ord2year today)) as H0.
  pose proof (isoweek1monday_spec (ord2year today - 1)) as Hm.
  pose proof (isoweek1monday_spec (ord2year today + 1)) as Hp.
  revert Hy Hnext Hprev H0 Hm Hp.
  generalize (isoweek1monday (ord2year today)) (isoweek1monday (ord2year today - 1))
             (isoweek1monday (ord2year today + 1)).
  generalize (days_before_year (ord2year today)) (days_before_year (ord2year today + 1))
             (days_before_year (ord2year today - 1)).
  intros d d1 dm w wm wp Hy Hnext Hprev H0 Hm Hp.
  destruct (Z.ltb_spec ((today - w) / 7) 0).
  - lia.
  - destruct (Z.leb_spec 52 ((today - w) / 7)); destruct (Z.leb_spec wp today);
      cbn [andb]; lia.
Qed.

Lemma dt_week_range (t : Timestamp) : 1 <= dt_week t <= 53.
Proof. apply isocalendar_week_range. Qed.

End CalendarRange.

(** ** More on loading *)
Module LoaderFacts.
Import Py Calendar Frame FrameFacts.

(** X2.  The RPM frame that [load_data] returns is the same for every
    metric that loads, and the name it returns is the metric asked for. *)
Theorem metrics_rpm_frame_independent (db : Database) (metric metric' : string)
        (m1 m1' : Metrics.MetricFrame) (m2 m2' : Metrics.RpmFrame) (name name' : string) :
  Metrics.load_data db metric = Return (m1, m2, name) ->
  Metrics.load_data db metric' = Return (m1', m2', name') ->
  m2 = m2' /\ name = metric /\ name' = metric'.
Proof.
  unfold Metrics.load_data. intros H H'.
  destruct (main_data db) as [samples|]; [|discriminate].
  destruct (rpm db) as [rpms|]; [|discriminate]. simpl in H, H'.
  destruct (metric_table db metric) as [rows|]; [|discriminate].
  destruct (metric_table db metric') as [rows'|]; [|discriminate]. simpl in H, H'.
  destruct (to_datetime (merge_inner samples rows)); [|discriminate].
  destruct (to_datetime (merge_inner samples rows')); [|discriminate]. simpl in H, H'.
  destruct (to_datetime (merge_inner samples rpms)); [|discriminate]. simpl in H, H'.
  injection H as <- <- <-. injection H' as <- <- <-. auto.
Qed.

Lemma metrics_rpm_frame_independent_witness :
  Samples.joined_rpm = Samples.joined_rpm
  /\ "std_dev"%string = "std_dev"%string /\ "rms"%string = "rms"%string.
Proof.
  apply (metrics_rpm_frame_independent Samples.store "std_dev" "rms"
           Samples.joined_std_dev [] Samples.joined_rpm Samples.joined_rpm).
  - reflexivity.
  - reflexivity.
Defined.

(** X4.  When identifiers are unique in the three tables, the two frames
    that the heatmap's [load_data] returns hold, in the order of the
    samples, the identifiers that have a flag row and those that have an RPM
    row; neither frame repeats an identifier or is longer than the tables
    it is joined from. *)
Theorem corruption_load_data_join (db : Database) (samples : list SampleRow)
        (rpms : list (TableRow (option Q))) (flags : list (TableRow (Columns Z)))
        (m1 : Corruption.FlagFrame) (m2 : Corruption.RpmFrame) :
  main_data db = Some samples -> rpm db = Some rpms -> corruption_status db = Some flags ->
  List.NoDup (map sample_id samples) -> List.NoDup (map key rpms) ->
  List.NoDup (map key flags) ->
  Corruption.load_data db = Return (m1, m2) ->
  map id m1 = List.filter (has_key flags) (map sample_id samples)
  /\ map id m2 = List.filter (has_key rpms) (map sample_id samples)
  /\ List.NoDup (map id m1) /\ List.NoDup (map id m2)
  /\ (length m1 <= Nat.min (length samples) (length flags))%nat
  /\ (length m2 <= Nat.min (length samples) (length rpms))%nat.
Proof.
  intros Hmain Hrpm Hflags Hs Hr Hf Hload.
  unfold Corruption.load_data in Hload. rewrite Hmain, Hrpm, Hflags in Hload.
  simpl in Hload.
  destruct (to_datetime (merge_inner samples flags)) as [j1|] eqn:H1; [|discriminate].
  destruct (to_datetime (merge_inner samples rpms)) as [j2|] eqn:H2; [|discriminate].
  simpl in Hload. injection Hload as <- <-.
  apply to_datetime_ids in H1, H2.
  rewrite merge_inner_ids in H1 by exact Hf. rewrite merge_inner_ids in H2 by exact Hr.
  split; [exact H1|]. split; [exact H2|].
  split; [rewrite H1; apply List.NoDup_filter; exact Hs|].
  split; [rewrite H2; apply List.NoDup_filter; exact Hs|].
  split.
  - rewrite <- (length_map id j1), H1, <- (merge_inner_ids samples flags Hf), length_map.
    apply merge_inner_length; assumption.
  - rewrite <- (length_map id j2), H2, <- (merge_inner_ids samples rpms Hr), length_map.
    apply merge_inner_length; assumption.
Qed.

Lemma corruption_load_data_join_witness :
  map id Samples.joined_flags
  = List.filter (has_key Samples.flag_rows) (map sample_id Samples.samples)
  /\ map id Samples.joined_rpm
     = List.filter (has_key Samples.rpm_rows) (map sample_id Samples.samples)
  /\ List.NoDup (map id Samples.joined_flags) /\ List.NoDup (map id Samples.joined_rpm)
  /\ (length Samples.joined_flags
      <= Nat.min (length Samples.samples) (length Samples.flag_rows))%nat
  /\ (length Samples.joined_rpm
      <= Nat.min (length Samples.samples) (length Samples.rpm_rows))%nat.
Proof.
  apply (corruption_load_data_join Samples.store Samples.samples Samples.rpm_rows
           Samples.flag_rows Samples.joined_flags Samples.joined_rpm).
  - reflexivity.
  - reflexivity.
  - reflexivity.
  - simpl. repeat constructor; simpl; intuition discriminate.
  - simpl. repeat constructor; simpl; intuition discriminate.
  - simpl. repeat constructor; simpl; intuition discriminate.
  - reflexivity.
Defined.

End LoaderFacts.

(** ** More on the time-series viewer: the frame that is drawn *)
Module ViewerFacts.
Import Py Calendar Frame Metrics FrameFacts MetricsFacts CalendarRange Startup.

(** *** Order *)

Lemma insert_by_time_sorted {V : Type} (r : Row Timestamp V) (l : list (Row Timestamp V)) :
  StronglySorted (fun a b => time a <= time b) l ->
  StronglySorted (fun a b => time a <= time b) (insert_by_time r l).
Proof.
  induction 1 as [|a l Hs IH Hall]; simpl; [repeat constructor|].
  match goal with |- context [if ?c then _ else _] => destruct c eqn:Hc end.
  - apply Z.leb_le in Hc.
    constructor; [constructor; assumption|]. constructor; [exact Hc|].
    eapply List.Forall_impl; [|exact Hall]. cbv beta. intros b Hb.
    exact (Z.le_trans _ _ _ Hc Hb).
  - apply Z.leb_gt in Hc.
    constructor; [exact IH|]. apply List.Forall_forall. intros x Hx.
    apply (Permutation_in _ (insert_by_time_perm r l)) in Hx.
    destruct Hx as [<-|Hx]; [apply Z.lt_le_incl; exact Hc|].
    rewrite List.Forall_forall in Hall. auto.
Qed.

Lemma sort_values_time_sorted {V : Type} (frame : list (Row Timestamp V)) :
  StronglySorted (fun a b => time a <= time b) (sort_values_time frame).
Proof.
  induction frame as [|r frame IH]; simpl; [constructor | apply insert_by_time_sorted, IH].
Qed.

(** X5.  The date-filtered frame, the RPM-filtered frame and the frame
    that is drawn are each in ascending order of time. *)
Theorem frames_ascending (start_day end_day : Z) (rpm_bin : Num)
        (merged_df1 df_filtered : MetricFrame) (merged_df2 rpm_rows : RpmFrame) :
  StronglySorted (fun a b => time a <= time b) (date_filtered start_day end_day merged_df1)
  /\ StronglySorted (fun a b => time a <= time b) (rpm_filtered rpm_bin merged_df2)
  /\ StronglySorted (fun a b => time a <= time b) (final_frame df_filtered rpm_rows).
Proof. repeat split; apply sort_values_time_sorted. Qed.

(** *** Membership *)

Lemma merge_id_time_In (left : MetricFrame) (right : list (Z * Timestamp)) r :
  In r (merge_id_time left right) <-> In r left /\ In (id r, time r) right.
Proof.
  unfold merge_id_time. rewrite in_flat_map. split.
  - intros (l & Hl & Hr). apply in_map_iff in Hr as ([i t] & <- & Hk).
    apply filter_In in Hk as [Hk Heq]. simpl in Heq.
    apply andb_true_iff in Heq as [Hi Ht]. apply Z.eqb_eq in Hi, Ht. subst.
    split; assumption.
  - intros [Hl Hk]. exists r. split; [exact Hl|]. apply in_map_iff.
    exists (id r, time r). split; [reflexivity|]. apply filter_In. split; [exact Hk|].
    simpl. rewrite !Z.eqb_refl. reflexivity.
Qed.

Lemma final_frame_In (df_filtered : MetricFrame) (rpm_rows : RpmFrame) r :
  In r (final_frame df_filtered rpm_rows)
  <-> In r df_filtered /\ exists q, In q rpm_rows /\ id q = id r /\ time q = time r.
Proof.
  unfold final_frame. rewrite sort_values_time_In, merge_id_time_In, in_map_iff. split.
  - intros [Hr (q & Hq & Hin)]. injection Hq as Hi Ht. eauto.
  - intros [Hr (q & Hin & Hi & Ht)]. split; [exact Hr|]. exists q.
    rewrite Hi, Ht. auto.
Qed.

(** X6.  A row is drawn exactly when it is a row of the metric frame whose
    date lies in the range, both ends included, and the RPM frame has a row
    of the same identifier and time whose reading [v] lies in the bin,
    [B <= v < B + 0.5]. *)
Theorem final_frame_rows (start_day end_day : Z) (rpm_bin : Num)
        (merged_df1 : MetricFrame) (merged_df2 : RpmFrame) (r : Row Timestamp (Columns Q)) :
  In r (final_frame (date_filtered start_day end_day merged_df1)
                    (rpm_filtered rpm_bin merged_df2))
  <-> In r merged_df1
      /\ start_day <= dt_date (time r) <= end_day
      /\ exists q v, In q merged_df2 /\ id q = id r /\ time q = time r
                     /\ data q = Some v
                     /\ (value rpm_bin <= v)%Q /\ (v < value rpm_bin + (1 # 2))%Q.
Proof.
  rewrite final_frame_In, date_filtered_In. unfold rpm_filtered. split.
  - intros [[Hin Hday] (q & Hq & Hi & Ht)].
    apply sort_values_time_In, filter_In in Hq as [Hq Hmask].
    apply rpm_mask_spec in Hmask as (v & Hv & Hge & Hlt). eauto 12.
  - intros (Hin & Hday & q & v & Hq & Hi & Ht & Hv & Hge & Hlt).
    split; [auto|]. exists q. split; [|auto].
    apply sort_values_time_In, filter_In. split; [exact Hq|].
    apply rpm_mask_spec. eauto.
Qed.

(** *** No row twice *)

Lemma key_matches_at_most_one (right : list (Z * Timestamp)) (i t : Z) :
  List.NoDup (map fst right) ->
  (length (List.filter (fun k => ((fst k =? i) && (snd k =? t))%Z) right) <= 1)%nat.
Proof.
  induction right as [|[i' t'] right IH]; simpl; intros Hnd; [lia|].
  apply List.NoDup_cons_iff in Hnd as [Hnotin Hnd]. specialize (IH Hnd).
  destruct (Z.eqb_spec i' i) as [->|Hne]; simpl; [|exact IH].
  destruct (t' =? t); [|exact IH]. simpl.
  destruct (List.filter (fun k => (fst k =? i) && (snd k =? t)) right) as [|k rest] eqn:Hf;
    [simpl; lia|].
  exfalso. apply Hnotin.
  assert (Hin : In k (List.filter (fun k => (fst k =? i) && (snd k =? t)) right))
    by (rewrite Hf; left; reflexivity).
  apply filter_In in Hin as [Hin Hk]. apply andb_true_iff in Hk as [Hk _].
  apply Z.eqb_eq in Hk. rewrite <- Hk. apply in_map. exact Hin.
Qed.

Lemma merge_id_time_unique (left : MetricFrame) (right : list (Z * Timestamp)) :
  List.NoDup (map fst right) ->
  merge_id_time left right
  = List.filter (fun l => existsb (fun k => (fst k =? id l) && (snd k =? time l)) right) left.
Proof.
  intros Hnd. unfold merge_id_time, MetricFrame, Timestamp in *.
  induction left as [|l left IH]; [reflexivity|].
  simpl. rewrite IH. clear IH.
  match goal with
  | |- context [existsb ?f right] => destruct (existsb f right) eqn:Hex
  end;
    match goal with
    | |- context [List.filter ?f right] =>
        remember (List.filter f right) as found eqn:Hf; symmetry in Hf;
        assert (Hle : (length found <= 1)%nat)
          by (rewrite <- Hf; apply key_matches_at_most_one; exact Hnd)
    end.
  - apply existsb_exists in Hex as (k & Hk & Hm).
    destruct found as [|k1 [|k2 rest]].
    + exfalso.
      pose proof (proj2 (filter_In (fun k => (fst k =? id l) && (snd k =? time l)) k right)
                        (conj Hk Hm)) as Hin.
      rewrite Hf in Hin. destruct Hin.
    + reflexivity.
    + simpl in Hle. lia.
  - destruct found as [|k1 rest]; [reflexivity|].
    exfalso.
    assert (Hin : In k1 (k1 :: rest)) by (left; reflexivity).
    rewrite <- Hf in Hin. apply filter_In in Hin as [Hin Hm].
    apply not_true_iff_false in Hex. apply Hex. apply existsb_exists. eauto.
Qed.

Lemma existsb_map_swap {A B : Type} (f : B -> bool) (g : A -> B) (l : list A) :
  existsb f (map g l) = existsb (fun a => f (g a)) l.
Proof. induction l as [|a l IH]; simpl; [reflexivity | rewrite IH; reflexivity]. Qed.

(** X7.  When no identifier occurs twice in the RPM frame, the frame that
    is drawn is a selection of the date-filtered rows, each taken at most
    once: no sample is counted twice in a daily mean, and no more rows are
    drawn than the metric frame has. *)
Theorem final_frame_selects (start_day end_day : Z) (rpm_bin : Num)
        (merged_df1 : MetricFrame) (merged_df2 : RpmFrame) :
  List.NoDup (map id merged_df2) ->
  let df_filtered := date_filtered start_day end_day merged_df1 in
  let rpm_rows := rpm_filtered rpm_bin merged_df2 in
  Permutation (final_frame df_filtered rpm_rows)
              (List.filter (fun l => existsb (fun q => (id q =? id l) && (time q =? time l))
                                             rpm_rows)
                           df_filtered)
  /\ (length (final_frame df_filtered rpm_rows) <= length merged_df1)%nat.
Proof.
  intros Hnd df_filtered rpm_rows.
  assert (Hkeys : List.NoDup (map fst (map (fun r => (id r, time r)) rpm_rows))).
  { rewrite map_map. simpl. subst rpm_rows. unfold rpm_filtered.
    eapply Permutation_NoDup.
    - symmetry. apply Permutation_map. apply sort_values_time_perm.
    - clear -Hnd. induction merged_df2 as [|q m IH]; simpl; [constructor|].
      apply List.NoDup_cons_iff in Hnd as [Hnotin Hnd].
      destruct (rpm_mask rpm_bin q); simpl; [|auto].
      constructor; [|auto]. intros Hin. apply Hnotin.
      apply in_map_iff in Hin as (q' & Hq' & Hin). apply filter_In in Hin as [Hin _].
      rewrite <- Hq'. apply in_map. exact Hin. }
  assert (Hperm : Permutation (final_frame df_filtered rpm_rows)
                    (List.filter (fun l => existsb (fun q => (id q =? id l) && (time q =? time l))
                                                   rpm_rows) df_filtered)).
  { unfold final_frame. rewrite sort_values_time_perm.
    rewrite merge_id_time_unique by exact Hkeys.
    erewrite filter_ext; [reflexivity|]. intros l. simpl.
    rewrite existsb_map_swap. reflexivity. }
  split; [exact Hperm|].
  rewrite (Permutation_length Hperm).
  etransitivity; [apply filter_length_le|].
  subst df_filtered. unfold date_filtered.
  rewrite (Permutation_length (sort_values_time_perm _)). apply filter_length_le.
Qed.

Lemma final_frame_selects_witness :
  let df_filtered := date_filtered 19723 19732 Samples.joined_std_dev in
  let rpm_rows := rpm_filtered (PyInt 10) Samples.joined_rpm in
  Permutation (final_frame df_filtered rpm_rows)
              (List.filter (fun l => existsb (fun q => (id q =? id l) && (time q =? time l))
                                             rpm_rows)
                           df_filtered)
  /\ (length (final_frame df_filtered rpm_rows) <= length Samples.joined_std_dev)%nat.
Proof.
  apply (final_frame_selects 19723 19732 (PyInt 10) Samples.joined_std_dev
           Samples.joined_rpm).
  simpl. repeat constructor; simpl; intuition discriminate.
Defined.

(** *** The earliest and the latest of a list *)

Lemma fold_min_le (t : Z) (ts : list Z) :
  fold_right Z.min t ts <= t /\ forall x, In x ts -> fold_right Z.min t ts <= x.
Proof.
  induction ts as [|a ts [IH1 IH2]]; simpl; [split; [lia | tauto]|].
  split; [lia|]. intros x [<-|Hx]; [lia|]. specialize (IH2 x Hx). lia.
Qed.

Lemma fold_max_ge (t : Z) (ts : list Z) :
  t <= fold_right Z.max t ts /\ forall x, In x ts -> x <= fold_right Z.max t ts.
Proof.
  induction ts as [|a ts [IH1 IH2]]; simpl; [split; [lia | tauto]|].
  split; [lia|]. intros x [<-|Hx]; [lia|]. specialize (IH2 x Hx). lia.
Qed.

End ViewerFacts.

(** ** More on the time-series viewer: the series of a trace *)
Module SeriesFacts.
Import Py Calendar Frame Metrics FrameFacts MetricsFacts CalendarRange ViewerFacts.

(** *** Means *)

Lemma dropna_In (l : list (option Q)) (q : Q) : In q (dropna l) <-> In (Some q) l.
Proof.
  induction l as [|[p|] l IH]; simpl; [tauto | |].
  - rewrite IH. split; intros [H|H]; auto; left; congruence.
  - rewrite IH. split; [auto|]. intros [H|H]; [discriminate | exact H].
Qed.

Lemma mean_None (l : list (option Q)) :
  mean l = None <-> forall q, ~ In (Some q) l.
Proof.
  unfold mean. destruct (dropna l) as [|q qs] eqn:Hd.
  - split; [|reflexivity]. intros _ q Hq. apply dropna_In in Hq. rewrite Hd in Hq.
    destruct Hq.
  - split; [discriminate|]. intros H. exfalso. apply (H q). apply dropna_In.
    rewrite Hd. left. reflexivity.
Qed.

(** *** Daily bins *)

Lemma fold_min_In (t : Z) (ts : list Z) : In (fold_right Z.min t ts) (t :: ts).
Proof.
  induction ts as [|a ts IH]; simpl; [auto|].
  destruct (Z.min_spec a (fold_right Z.min t ts)) as [[_ ->]|[_ ->]]; [auto|].
  destruct IH as [IH|IH]; auto.
Qed.

Lemma fold_max_In (t : Z) (ts : list Z) : In (fold_right Z.max t ts) (t :: ts).
Proof.
  induction ts as [|a ts IH]; simpl; [auto|].
  destruct (Z.max_spec a (fold_right Z.max t ts)) as [[_ ->]|[_ ->]]; [|auto].
  destruct IH as [IH|IH]; auto.
Qed.


Lemma resample_bins (s : list (Timestamp * option Q)) :
  exists first_day n,
    resample_D_mean s
    = map (fun day =>
             (day, mean (map snd (List.filter (fun p => dt_date (fst p) =? day) s))))
          (seqZ first_day n)
    /\ (s = [] -> n = 0)
    /\ (forall t v, In (t, v) s -> first_day <= dt_date t < first_day + n)
    /\ (s <> [] -> (exists t v, In (t, v) s /\ dt_date t = first_day)
                   /\ (exists t v, In (t, v) s /\ dt_date t = first_day + n - 1)).
Proof.
  unfold resample_D_mean. destruct s as [|[t0 v0] s'] eqn:Hs.
  - exists 0, 0. split; [reflexivity|]. split; [reflexivity|].
    split; [intros ? ? []|]. intros H. exfalso. apply H. reflexivity.
  - rewrite <- Hs. replace (map (fun p => dt_date (fst p)) s)
      with (dt_date t0 :: map (fun p => dt_date (fst p)) s') by (rewrite Hs; reflexivity).
    set (ds := map (fun p => dt_date (fst p)) s').
    pose proof (fold_min_le (dt_date t0) ds) as [Hmin0 Hmin].
    pose proof (fold_max_ge (dt_date t0) ds) as [Hmax0 Hmax].
    pose proof (fold_min_In (dt_date t0) ds) as Hmin_in.
    pose proof (fold_max_In (dt_date t0) ds) as Hmax_in.
    assert (Hdays : forall d, In d (dt_date t0 :: ds) -> exists t v, In (t, v) s /\ dt_date t = d).
    { intros d [<-|Hd].
      - exists t0, v0. rewrite Hs. split; [left; reflexivity | reflexivity].
      - apply in_map_iff in Hd as ([t v] & Hd & Hin). exists t, v. rewrite Hs.
        split; [right; exact Hin | exact Hd]. }
    exists (fold_right Z.min (dt_date t0) ds),
           (fold_right Z.max (dt_date t0) ds - fold_right Z.min (dt_date t0) ds + 1).
    split; [reflexivity|]. split; [rewrite Hs; discriminate|]. split.
    + intros t v Hin. rewrite Hs in Hin. destruct Hin as [[= <- <-]|Hin]; [lia|].
      assert (Hd : In (dt_date t) ds).
      { apply in_map_iff. exists (t, v). split; [reflexivity | exact Hin]. }
      specialize (Hmin _ Hd). specialize (Hmax _ Hd). lia.
    + intros _. split.
      * apply Hdays. exact Hmin_in.
      * replace (fold_right Z.min (dt_date t0) ds
                 + (fold_right Z.max (dt_date t0) ds - fold_right Z.min (dt_date t0) ds + 1)
                 - 1) with (fold_right Z.max (dt_date t0) ds) by lia.
        apply Hdays. exact Hmax_in.
Qed.

(** *** The rolling window *)

Lemma rolling_from_days (window min_periods : nat) (seen : list (option Q)) (s : Series) :
  map fst (rolling_from window min_periods seen s) = map fst s.
Proof.
  revert seen. induction s as [|[d v] s IH]; intros seen; simpl; [reflexivity|].
  rewrite IH. reflexivity.
Qed.

Lemma rolling_from_lookup (window min_periods : nat) (seen : list (option Q)) (s : Series)
      (i : nat) (d : Z) (v : option Q) :
  s !! i = Some (d, v) ->
  rolling_from window min_periods seen s !! i
  = Some (d, window_mean window min_periods (rev (map snd (take i s)) ++ seen) v).
Proof.
  revert seen i. induction s as [|[d0 v0] s IH]; intros seen i Hi; [discriminate|].
  destruct i as [|i]; simpl in *.
  - injection Hi as <- <-. reflexivity.
  - etransitivity; [exact (IH (v0 :: seen) i Hi)|]. rewrite <- app_assoc. reflexivity.
Qed.

Lemma nth_error_lookup {A : Type} (l : list A) (i : nat) : nth_error l i = l !! i.
Proof.
  revert i. induction l as [|a l IH]; intros [|i]; simpl; try reflexivity. apply IH.
Qed.

(** The window that ends at place [i]: the values at the places [i - k]
    for [k] below the window length. *)
Lemma window_values (window : nat) (s : Series) (i : nat) (d : Z) (v x : option Q) :
  s !! i = Some (d, v) ->
  In x (take window (v :: rev (map snd (take i s))))
  <-> exists k, (k < window)%nat /\ (k <= i)%nat /\ map snd s !! (i - k)%nat = Some x.
Proof.
  intros Hi.
  assert (Hlen : (i < length s)%nat) by (eapply lookup_lt_Some; exact Hi).
  assert (Hrev : v :: rev (map snd (take i s)) = rev (map snd (take (S i) s))).
  { rewrite (take_S_r s i (d, v) Hi), map_app, rev_app_distr. reflexivity. }
  rewrite Hrev, <- list_elem_of_In, elem_of_take.
  assert (Hl : length (map snd (take (S i) s)) = S i).
  { rewrite length_map, length_take. lia. }
  split.
  - intros (k & Hk & Hw). rewrite <- nth_error_lookup, nth_error_rev, Hl in Hk.
    destruct (Nat.ltb_spec k (S i)) as [Hki|]; [|discriminate].
    exists k. split; [exact Hw|]. split; [lia|].
    rewrite nth_error_lookup, list_lookup_fmap, lookup_take_lt in Hk by lia.
    rewrite list_lookup_fmap. replace (i - k)%nat with (S i - S k)%nat by lia. exact Hk.
  - intros (k & Hw & Hki & Hk). exists k. split; [|exact Hw].
    rewrite <- nth_error_lookup, nth_error_rev, Hl.
    rewrite (proj2 (Nat.ltb_lt k (S i))) by lia.
    rewrite nth_error_lookup, list_lookup_fmap, lookup_take_lt by lia.
    rewrite list_lookup_fmap in Hk. replace (S i - S k)%nat with (i - k)%nat by lia. exact Hk.
Qed.

Lemma window_mean_None (window : nat) (seen : list (option Q)) (v : option Q) :
  window_mean window 1 seen v = None
  <-> forall q, ~ In (Some q) (take window (v :: seen)).
Proof.
  unfold window_mean. rewrite <- mean_None.
  destruct (dropna (take window (v :: seen))) as [|q qs] eqn:Hd.
  - simpl. unfold mean. rewrite Hd. tauto.
  - simpl. tauto.
Qed.


(** X10.  With a window of at least one day, the rolling mean returns a
    series over the same days, and its value on a day is NaN exactly when
    every value of the window, that day's and those of the [window - 1] days
    before it, is NaN.  So a day with a daily mean always has a value, and a
    gap is filled for [window - 1] days after the last value. *)
Theorem rolling_window_values (window : nat) (s : Series) :
  (1 <= window)%nat ->
  exists s',
    rolling_mean window 1 s = Return s'
    /\ map fst s' = map fst s
    /\ forall i d v, s' !! i = Some (d, v) ->
          (v = None <-> forall k x, (k < window)%nat -> (k <= i)%nat ->
                                    map snd s !! (i - k)%nat = Some x -> x = None).
Proof.
  intros Hw. exists (rolling_from window 1 [] s). split; [|split].
  - unfold rolling_mean. destruct (Nat.ltb_spec window 1); [lia | reflexivity].
  - apply rolling_from_days.
  - intros i d v Hi.
    assert (Hlen : (i < length s)%nat).
    { apply lookup_lt_Some in Hi.
      rewrite <- (length_map fst), rolling_from_days, length_map in Hi. exact Hi. }
    destruct (lookup_lt_is_Some_2 s i Hlen) as [[d' x'] Hs].
    pose proof (rolling_from_lookup window 1 [] s i d' x' Hs) as Hout.
    rewrite app_nil_r in Hout.
    assert (Heq : Some (d, v)
                  = Some (d', window_mean window 1 (rev (map snd (take i s))) x')).
    { etransitivity; [symmetry; exact Hi | exact Hout]. }
    injection Heq as -> ->. rewrite window_mean_None. split.
    + intros Hnone k x Hk Hki Hx. destruct x as [q|]; [|reflexivity].
      exfalso. apply (Hnone q). apply (window_values window s i d' x' (Some q) Hs). eauto.
    + intros Hall q Hq. apply (window_values window s i d' x' (Some q) Hs) in Hq
        as (k & Hk & Hki & Hx). specialize (Hall k (Some q) Hk Hki Hx). discriminate.
Qed.

Lemma rolling_window_values_witness :
  exists s',
    rolling_mean 2 1 [(0, Some 3%Q); (1, None); (2, None)] = Return s'
    /\ map fst s' = map fst [(0, Some 3%Q); (1, None); (2, @None Q)]
    /\ forall i d v, s' !! i = Some (d, v) ->
          (v = None <-> forall k x, (k < 2)%nat -> (k <= i)%nat ->
                                    map snd [(0, Some 3%Q); (1, None); (2, @None Q)]
                                      !! (i - k)%nat = Some x -> x = None).
Proof. apply (rolling_window_values 2 [(0, Some 3%Q); (1, None); (2, None)]). lia. Defined.

(** *** The figure as a whole *)

Lemma resample_days_of_times (s s' : list (Timestamp * option Q)) :
  map fst s = map fst s' -> map fst (resample_D_mean s) = map fst (resample_D_mean s').
Proof.
  intros Heq. unfold resample_D_mean.
  assert (Hdays : map (fun p => dt_date (fst p)) s = map (fun p => dt_date (fst p)) s').
  { rewrite <- (map_map fst dt_date s), <- (map_map fst dt_date s'), Heq. reflexivity. }
  rewrite Hdays. destruct (map (fun p => dt_date (fst p)) s'); [reflexivity|].
  rewrite !map_map. reflexivity.
Qed.

Lemma channel_trace_axes (final_df : MetricFrame) (sensor : Sensor) (ma_days : nat)
      (ch : Channel) (tr : Scatter) :
  channel_trace final_df sensor ma_days ch = Return tr ->
  x tr = map (fun d => d * NS_PER_DAY)
             (map fst (resample_D_mean (map (fun r => (time r, @None Q)) final_df)))
  /\ length (y tr) = length (x tr).
Proof.
  unfold channel_trace, rolling_mean. intros Htr.
  destruct (ma_days <? 1)%nat; [discriminate|]. simpl in Htr. injection Htr as <-. simpl.
  split.
  - rewrite <- (map_map fst (fun d => d * NS_PER_DAY)), rolling_from_days. f_equal.
    apply resample_days_of_times. rewrite !map_map. reflexivity.
  - rewrite !length_map. reflexivity.
Qed.


Lemma final_frame_nil_l (rpm_rows : RpmFrame) : final_frame [] rpm_rows = [].
Proof. reflexivity. Qed.

Lemma final_frame_nil_r (df_filtered : MetricFrame) : final_frame df_filtered [] = [].
Proof.
  unfold final_frame, merge_id_time. simpl.
  induction df_filtered as [|l df IH]; [reflexivity | exact IH].
Qed.

Lemma filter_none {A : Type} (f : A -> bool) (l : list A) :
  (forall a, In a l -> f a = false) -> List.filter f l = [].
Proof.
  induction l as [|a l IH]; simpl; intros H; [reflexivity|].
  rewrite (H a) by auto. apply IH. auto.
Qed.

Section Returned.

Variable float_repr : Q -> string.

(** X12.  In a figure that [update_graph] returns, the three traces are
    drawn over the same days, one point a day from the first to the last day
    of the frame that is drawn, and each trace has as many values as days. *)
Theorem traces_share_days (db : Database) (selected_metric : string)
        (selected_sensor : Sensor) (rpm_bin : Num) (start_date end_date : TimeText)
        (y_min y_max : option Q) (ma_days : nat) (fig : Figure) :
  update_graph float_repr db selected_metric selected_sensor rpm_bin start_date
               end_date y_min y_max ma_days = Return fig ->
  exists first_day n,
    length (traces fig) = 3%nat
    /\ forall tr, In tr (traces fig) ->
                  x tr = map (fun d => d * NS_PER_DAY) (seqZ first_day n)
                  /\ length (y tr) = length (seqZ first_day n).
Proof.
  unfold update_graph. intros H.
  apply bind_Return in H as ([[m1 m2] metric] & _ & H).
  apply bind_Return in H as (start & _ & H).
  apply bind_Return in H as (stop & _ & H).
  apply bind_Return in H as (trs & Htr & H). injection H as <-. simpl.
  set (final_df := final_frame _ _) in Htr.
  destruct (resample_bins (map (fun r => (time r, @None Q)) final_df))
    as (first_day & n & Hbins & _).
  assert (Hdays : map fst (resample_D_mean (map (fun r => (time r, @None Q)) final_df))
                  = seqZ first_day n)
    by (rewrite Hbins, map_map; apply map_id).
  exists first_day, n. apply for_each_Forall2 in Htr. split.
  - apply Forall2_length in Htr. rewrite <- Htr. reflexivity.
  - intros tr Hin. apply Forall2_right_sources in Htr.
    rewrite List.Forall_forall in Htr. destruct (Htr tr Hin) as (ch & _ & Hch).
    apply channel_trace_axes in Hch as [Hx Hy]. rewrite Hy, Hx, Hdays.
    split; [reflexivity | apply length_map].
Qed.


(** X14.  When the data loads, the dates parse and the window is at least
    one day, a range whose end lies before its start, and likewise a bin
    that no RPM reading falls into, gives a figure of three traces without
    points, not an error. *)
Theorem empty_selection_empty_chart (db : Database) (selected_metric : string)
        (selected_sensor : Sensor) (rpm_bin : Num) (start stop : Timestamp)
        (y_min y_max : option Q) (ma_days : nat)
        (m1 : MetricFrame) (m2 : RpmFrame) (name : string) :
  load_data db selected_metric = Return (m1, m2, name) ->
  (1 <= ma_days)%nat ->
  dt_date stop < dt_date start
  \/ (forall r v, In r m2 -> data r = Some v ->
                  ~ ((value rpm_bin <= v)%Q /\ (v < value rpm_bin + (1 # 2))%Q)) ->
  exists fig,
    update_graph float_repr db selected_metric selected_sensor rpm_bin (Parses start)
                 (Parses stop) y_min y_max ma_days = Return fig
    /\ length (traces fig) = 3%nat
    /\ forall tr, In tr (traces fig) -> x tr = [] /\ y tr = [].
Proof.
  intros Hload Hma Hempty. unfold update_graph. rewrite Hload. simpl.
  assert (Hfinal : final_frame (date_filtered (dt_date start) (dt_date stop) m1)
                               (rpm_filtered rpm_bin m2) = []).
  { destruct Hempty as [Hrange|Hbin].
    - unfold date_filtered. rewrite filter_none; [reflexivity|].
      intros r _. apply not_true_iff_false. rewrite date_mask_spec. lia.
    - unfold rpm_filtered. rewrite filter_none; [apply final_frame_nil_r|].
      intros r Hr. apply not_true_iff_false. rewrite rpm_mask_spec.
      intros (v & Hv & Hge & Hlt). exact (Hbin r v Hr Hv (conj Hge Hlt)). }
  rewrite Hfinal. unfold CHANNELS, channel_trace, rolling_mean. simpl.
  destruct (Nat.ltb_spec ma_days 1); [lia|]. simpl.
  eexists. split; [reflexivity|]. simpl. split; [reflexivity|].
  intros tr [<-|[<-|[<-|[]]]]; split; reflexivity.
Qed.

End Returned.


Lemma empty_selection_empty_chart_witness :
  exists fig,
    update_graph Samples.repr_tenths Samples.store "std_dev" s1 (PyInt 10)
                 (Parses (at_time 2024 1 10 0 0)) (Parses (at_time 2024 1 1 0 0))
                 None None 7 = Return fig
    /\ length (traces fig) = 3%nat
    /\ forall tr, In tr (traces fig) -> x tr = [] /\ y tr = [].
Proof.
  apply (empty_selection_empty_chart Samples.repr_tenths Samples.store "std_dev" s1
           (PyInt 10) (at_time 2024 1 10 0 0) (at_time 2024 1 1 0 0) None None 7
           Samples.joined_std_dev Samples.joined_rpm "std_dev").
  - reflexivity.
  - lia.
  - left. vm_compute. reflexivity.
Defined.

Lemma traces_share_days_witness :
  exists first_day n,
    length (traces MoreSamples.sample_figure) = 3%nat
    /\ forall tr, In tr (traces MoreSamples.sample_figure) ->
                  x tr = map (fun d => d * NS_PER_DAY) (seqZ first_day n)
                  /\ length (y tr) = length (seqZ first_day n).
Proof.
  apply (traces_share_days Samples.repr_tenths Samples.store "std_dev" s1 (PyInt 10)
           (Parses (at_time 2024 1 1 0 0)) (Parses (at_time 2024 1 10 0 0)) None None 2
           MoreSamples.sample_figure).
  vm_compute. reflexivity.
Defined.

End SeriesFacts.

(** ** What the viewer's page starts from: limits and bins *)
Module StartupFacts.
Import Py Calendar Frame Metrics FrameFacts MetricsFacts Startup.

(** *** The default limits of the value axis *)

Lemma insert_value_perm (v : Q) (l : list Q) : Permutation (insert_value v l) (v :: l).
Proof.
  induction l as [|a l IH]; simpl; [reflexivity|].
  destruct (Qle_bool v a); [reflexivity|]. rewrite IH. apply perm_swap.
Qed.

Lemma sort_values_perm (l : list Q) : Permutation (sort_values l) l.
Proof.
  induction l as [|v l IH]; simpl; [reflexivity|].
  rewrite insert_value_perm. constructor. exact IH.
Qed.

Lemma insert_value_sorted (v : Q) (l : list Q) :
  StronglySorted Qle l -> StronglySorted Qle (insert_value v l).
Proof.
  induction 1 as [|a l Hs IH Hall]; simpl; [repeat constructor|].
  destruct (Qle_bool v a) eqn:Hva.
  - apply Qle_bool_iff in Hva. constructor; [constructor; assumption|].
    constructor; [exact Hva|]. eapply List.Forall_impl; [|exact Hall].
    intros b Hb. eapply Qle_trans; eassumption.
  - assert (Hav : (a <= v)%Q).
    { apply Qlt_le_weak, Qnot_le_lt. intros Hle. apply Qle_bool_iff in Hle. congruence. }
    constructor; [exact IH|]. apply List.Forall_forall. intros b Hb.
    apply (Permutation_in _ (insert_value_perm v l)) in Hb.
    destruct Hb as [<-|Hb]; [exact Hav|]. rewrite List.Forall_forall in Hall. auto.
Qed.

Lemma sort_values_sorted (l : list Q) : StronglySorted Qle (sort_values l).
Proof.
  induction l as [|v l IH]; simpl; [constructor | apply insert_value_sorted, IH].
Qed.

Lemma sorted_nth (l : list Q) (d : Q) :
  StronglySorted Qle l ->
  forall i j, (i <= j)%nat -> (j < length l)%nat -> (nth i l d <= nth j l d)%Q.
Proof.
  induction 1 as [|a l Hs IH Hall]; intros i j Hij Hj; [simpl in Hj; lia|].
  destruct i as [|i], j as [|j]; simpl in *; try lia.
  - apply Qle_refl.
  - rewrite List.Forall_forall in Hall. apply Hall. apply nth_In. lia.
  - apply IH; lia.
Qed.

(** The pieces of an interpolation between two neighbours of the sorted
    values. *)
Lemma interpolation_between (lower upper gamma : Q) :
  (lower <= upper)%Q -> (0 <= gamma)%Q -> (gamma <= 1)%Q ->
  (lower <= lower + (upper - lower) * gamma)%Q
  /\ (lower + (upper - lower) * gamma <= upper)%Q.
Proof. intros Hlu Hg0 Hg1. split; nra. Qed.

Lemma interpolation_monotone (lower upper gamma gamma' : Q) :
  (lower <= upper)%Q -> (gamma <= gamma')%Q ->
  (lower + (upper - lower) * gamma <= lower + (upper - lower) * gamma')%Q.
Proof. intros Hlu Hg. nra. Qed.


Lemma virtual_index_bounds (n : Z) (q : Q) :
  1 <= n -> (0 <= q)%Q -> (q <= 100)%Q ->
  let place := (inject_Z (n - 1) * (q / 100))%Q in
  0 <= Qfloor place <= n - 1
  /\ (0 <= place - inject_Z (Qfloor place))%Q
  /\ (place - inject_Z (Qfloor place) <= 1)%Q.
Proof.
  intros Hn Hq0 Hq100 place.
  assert (HN : (0 <= inject_Z (n - 1))%Q).
  { change 0%Q with (inject_Z 0). rewrite <- Zle_Qle. lia. }
  assert (Hc0 : (0 <= q / 100)%Q) by (apply Qle_shift_div_l; lra).
  assert (Hc1 : (q / 100 <= 1)%Q) by (apply Qle_shift_div_r; lra).
  assert (Hp0 : (0 <= place)%Q) by (subst place; nra).
  assert (Hp1 : (place <= inject_Z (n - 1))%Q) by (subst place; nra).
  pose proof (Qfloor_le place) as Hfl.
  pose proof (Qlt_floor place) as Hfu. rewrite inject_Z_plus in Hfu.
  change (inject_Z 1) with 1%Q in Hfu.
  split; [split|split].
  - rewrite <- (Qfloor_Z 0). apply Qfloor_resp_le. exact Hp0.
  - rewrite <- (Qfloor_Z (n - 1)). apply Qfloor_resp_le. exact Hp1.
  - lra.
  - lra.
Qed.

Lemma virtual_index_monotone (n : Z) (q q' : Q) :
  1 <= n -> (q <= q')%Q ->
  (inject_Z (n - 1) * (q / 100) <= inject_Z (n - 1) * (q' / 100))%Q.
Proof.
  intros Hn Hq.
  assert (HN : (0 <= inject_Z (n - 1))%Q).
  { change 0%Q with (inject_Z 0). rewrite <- Zle_Qle. lia. }
  assert (Hc : (q / 100 <= q' / 100)%Q).
  { unfold Qdiv. apply Qmult_le_compat_r; [exact Hq | discriminate]. }
  nra.
Qed.

(** A percentile of values that all lie between [lo] and [hi] lies between
    [lo] and [hi]. *)
Lemma percentile_within (a : list Q) (q lo hi : Q) :
  a <> [] -> (0 <= q)%Q -> (q <= 100)%Q ->
  (forall v, In v a -> (lo <= v)%Q /\ (v <= hi)%Q) ->
  exists p, percentile a q = Some p /\ (lo <= p)%Q /\ (p <= hi)%Q.
Proof.
  intros Hne Hq0 Hq100 Hall. unfold percentile.
  pose proof (sort_values_perm a) as Hperm. pose proof (sort_values_sorted a) as Hsorted.
  destruct (sort_values a) as [|first rest] eqn:Hs.
  { apply Permutation_nil in Hperm. contradiction. }
  cbv zeta. set (sorted := first :: rest) in *.
  set (n := Z.of_nat (length sorted)).
  assert (Hn : 1 <= n) by (subst n sorted; simpl length; lia).
  destruct (virtual_index_bounds n q Hn Hq0 Hq100) as ([Hp0 Hp1] & Hg0 & Hg1).
  cbv zeta in Hp0, Hp1, Hg0, Hg1.
  set (place := (inject_Z (n - 1) * (q / 100))%Q) in *.
  set (previous := Qfloor place) in *.
  set (next := Z.min (previous + 1) (n - 1)).
  eexists. split; [reflexivity|].
  assert (Hin : forall i, (i < length sorted)%nat ->
                          (lo <= nth i sorted first)%Q /\ (nth i sorted first <= hi)%Q).
  { intros i Hi. apply Hall. apply (Permutation_in _ Hperm). apply nth_In. exact Hi. }
  assert (Hlu : (nth (Z.to_nat previous) sorted first <= nth (Z.to_nat next) sorted first)%Q).
  { apply sorted_nth; [exact Hsorted | subst next; lia | subst next n; lia]. }
  destruct (Hin (Z.to_nat previous)) as [Hlo _]; [subst n; lia|].
  destruct (Hin (Z.to_nat next)) as [_ Hhi]; [subst next n; lia|].
  destruct (interpolation_between _ _ _ Hlu Hg0 Hg1) as [Hb1 Hb2].
  split; eapply Qle_trans; eassumption.
Qed.

(** A higher percentile is not below a lower one. *)
Lemma percentile_monotone (a : list Q) (q q' p p' : Q) :
  (0 <= q)%Q -> (q <= q')%Q -> (q' <= 100)%Q ->
  percentile a q = Some p -> percentile a q' = Some p' -> (p <= p')%Q.
Proof.
  intros Hq0 Hqq Hq100. unfold percentile.
  pose proof (sort_values_sorted a) as Hsorted.
  destruct (sort_values a) as [|first rest] eqn:Hs; [discriminate|].
  cbv zeta. set (sorted := first :: rest) in *.
  set (n := Z.of_nat (length sorted)).
  assert (Hn : 1 <= n) by (subst n sorted; simpl length; lia).
  assert (Hq100' : (q <= 100)%Q) by lra. assert (Hq0' : (0 <= q')%Q) by lra.
  destruct (virtual_index_bounds n q Hn Hq0 Hq100') as ([Ha0 Ha1] & Hga0 & Hga1).
  destruct (virtual_index_bounds n q' Hn Hq0' Hq100) as ([Hb0 Hb1] & Hgb0 & Hgb1).
  pose proof (virtual_index_monotone n q q' Hn Hqq) as Hmono.
  cbv zeta in Ha0, Ha1, Hga0, Hga1, Hb0, Hb1, Hgb0, Hgb1.
  set (place := (inject_Z (n - 1) * (q / 100))%Q) in *.
  set (place' := (inject_Z (n - 1) * (q' / 100))%Q) in *.
  pose proof (Qfloor_resp_le _ _ Hmono) as Hfloor.
  set (previous := Qfloor place) in *. set (previous' := Qfloor place') in *.
  intros [= <-] [= <-].
  assert (Hsn : forall i j, i <= j -> 0 <= i -> j <= n - 1 ->
                            (nth (Z.to_nat i) sorted first <= nth (Z.to_nat j) sorted first)%Q).
  { intros i j Hij Hi Hj. apply sorted_nth; [exact Hsorted | lia | subst n; lia]. }
  destruct (Z.eq_dec previous previous') as [Heq|Hne].
  - rewrite <- Heq. apply interpolation_monotone; [apply Hsn; lia|].
    rewrite <- Heq in *. lra.
  - assert (Hlt : previous + 1 <= previous') by lia.
    destruct (interpolation_between
                (nth (Z.to_nat previous) sorted first)
                (nth (Z.to_nat (Z.min (previous + 1) (n - 1))) sorted first)
                (place - inject_Z previous)) as [_ Hup]; [apply Hsn; lia | lra | lra |].
    destruct (interpolation_between
                (nth (Z.to_nat previous') sorted first)
                (nth (Z.to_nat (Z.min (previous' + 1) (n - 1))) sorted first)
                (place' - inject_Z previous')) as [Hlow _]; [apply Hsn; lia | lra | lra |].
    eapply Qle_trans; [exact Hup|]. eapply Qle_trans; [|exact Hlow].
    apply Hsn; lia.
Qed.

Lemma all_values_In (merged_df1 : MetricFrame) (q : Q) :
  In q (all_values merged_df1)
  <-> exists r ch s, In r merged_df1 /\ data r ch s = Some q.
Proof.
  unfold all_values. rewrite in_flat_map. split.
  - intros (ch & _ & Hq). apply in_flat_map in Hq as (s & _ & Hq).
    apply SeriesFacts.dropna_In, in_map_iff in Hq as (r & Hr & Hin). eauto.
  - intros (r & ch & s & Hr & Hq). exists ch. split; [destruct ch; simpl; auto|].
    apply in_flat_map. exists s. split; [destruct s; simpl; auto 7|].
    apply SeriesFacts.dropna_In, in_map_iff. eauto.
Qed.

(** X15.  When the frame has at least one value, [calculate_y_limits]
    gives a lower and an upper limit with lower <= upper, and both lie
    between the smallest and the largest value of the eighteen columns. *)
Theorem y_limits_within_data (merged_df1 : MetricFrame) :
  (exists r ch s q, In r merged_df1 /\ data r ch s = Some q) ->
  exists y_min y_max,
    calculate_y_limits merged_df1 = Some (y_min, y_max)
    /\ (y_min <= y_max)%Q
    /\ forall lo hi,
         (forall r ch s q, In r merged_df1 -> data r ch s = Some q ->
                           (lo <= q)%Q /\ (q <= hi)%Q) ->
         (lo <= y_min)%Q /\ (y_max <= hi)%Q.
Proof.
  intros (r0 & ch0 & s0 & q0 & Hr0 & Hq0).
  assert (Hne : all_values merged_df1 <> []).
  { intros Hnil. assert (Hin : In q0 (all_values merged_df1)) by (apply all_values_In; eauto).
    rewrite Hnil in Hin. destruct Hin. }
  assert (Htriv : forall v, In v (all_values merged_df1) -> (v <= v)%Q /\ (v <= v)%Q)
    by (intros; split; apply Qle_refl).
  assert (Hexists : forall q, (0 <= q)%Q -> (q <= 100)%Q ->
                              exists p, percentile (all_values merged_df1) q = Some p).
  { intros q H0 H100. unfold percentile.
    pose proof (sort_values_perm (all_values merged_df1)) as Hperm.
    destruct (sort_values (all_values merged_df1)); [|eauto].
    apply Permutation_nil in Hperm. contradiction. }
  destruct (Hexists (5 # 2)) as [y_min Hmin]; [lra | lra |].
  destruct (Hexists (195 # 2)) as [y_max Hmax]; [lra | lra |].
  exists y_min, y_max. unfold calculate_y_limits. rewrite Hmin, Hmax.
  split; [reflexivity|]. split.
  - apply (percentile_monotone (all_values merged_df1) (5 # 2) (195 # 2)); (lra || assumption).
  - intros lo hi Hall.
    assert (Hvals : forall v, In v (all_values merged_df1) -> (lo <= v)%Q /\ (v <= hi)%Q).
    { intros v Hv. apply all_values_In in Hv as (r & ch & s & Hr & Hq). eauto. }
    destruct (percentile_within _ (5 # 2) lo hi Hne) as (p & Hp & Hlo & _);
      [lra | lra | exact Hvals |].
    destruct (percentile_within _ (195 # 2) lo hi Hne) as (p' & Hp' & _ & Hhi);
      [lra | lra | exact Hvals |].
    rewrite Hmin in Hp. rewrite Hmax in Hp'. injection Hp as <-. injection Hp' as <-.
    auto.
Qed.

Lemma y_limits_within_data_witness :
  exists y_min y_max,
    calculate_y_limits Samples.joined_std_dev = Some (y_min, y_max)
    /\ (y_min <= y_max)%Q
    /\ forall lo hi,
         (forall r ch s q, In r Samples.joined_std_dev -> data r ch s = Some q ->
                           (lo <= q)%Q /\ (q <= hi)%Q) ->
         (lo <= y_min)%Q /\ (y_max <= hi)%Q.
Proof.
  apply (y_limits_within_data Samples.joined_std_dev).
  exists {| id := 1; time := at_time 2024 1 1 8 0; data := Samples.by_channel 2%Q 1%Q |},
         ch1, s1, 2%Q.
  split; [left; reflexivity | reflexivity].
Defined.

Example sample_y_limits :
  match calculate_y_limits Samples.joined_std_dev with
  | Some (y_min, y_max) => (y_min == 1)%Q /\ (y_max == 7)%Q
  | None => False
  end.
Proof. vm_compute. split; reflexivity. Qed.

Example sample_percentiles :
  percentile [4; 1; 3; 2]%Q 50 = Some (250 # 100)%Q
  /\ percentile [4; 1; 3; 2]%Q 100 = Some (400 # 100)%Q
  /\ percentile [] 50 = None.
Proof. repeat split. Qed.

(** *** The bins of the RPM dropdown *)

Lemma rpm_options_In (B : Q) :
  In B rpm_options <-> exists k, 0 <= k < 35 /\ B = (inject_Z k * (1 # 2))%Q.
Proof.
  change rpm_options with (map (fun k => inject_Z k * (1 # 2))%Q (seqZ 0 35)).
  rewrite in_map_iff. split.
  - intros (k & <- & Hk). apply list_elem_of_In, elem_of_seqZ in Hk. exists k. split; [lia|reflexivity].
  - intros (k & Hk & ->). exists k. split; [reflexivity|].
    apply list_elem_of_In, elem_of_seqZ. lia.
Qed.

(** X16.  The bins that the dropdown offers divide the readings from 0 up
    to 17.5, 17.5 not included: such a reading passes the RPM mask of exactly
    one offered bin, and a reading outside that range, or NaN, passes the
    mask of none. *)
Theorem rpm_bins_partition (r : Row Timestamp (option Q)) :
  (forall v, data r = Some v -> (0 <= v)%Q -> (v < 35 # 2)%Q ->
     exists B, In B rpm_options /\ rpm_mask (PyFloat B) r = true
               /\ forall B', In B' rpm_options -> rpm_mask (PyFloat B') r = true ->
                              B' = B)
  /\ (forall B, In B rpm_options -> rpm_mask (PyFloat B) r = true ->
         exists v, data r = Some v /\ (0 <= v)%Q /\ (v < 35 # 2)%Q).
Proof.
  split.
  - intros v Hv H0 H35.
    pose proof (Qfloor_le (v * 2)) as Hfl. pose proof (Qlt_floor (v * 2)) as Hfu.
    rewrite inject_Z_plus in Hfu. change (inject_Z 1) with 1%Q in Hfu.
    set (k := Qfloor (v * 2)) in *.
    assert (Hk0 : 0 <= k).
    { subst k. rewrite <- (Qfloor_Z 0). apply Qfloor_resp_le. change (inject_Z 0) with 0%Q. lra. }
    assert (Hk35 : k < 35).
    { assert (Hq : (inject_Z k < inject_Z 35)%Q) by (change (inject_Z 35) with 35%Q; lra).
      rewrite <- Zlt_Qlt in Hq. exact Hq. }
    exists (inject_Z k * (1 # 2))%Q. split; [apply rpm_options_In; eauto|]. split.
    + apply rpm_mask_spec. exists v. simpl. split; [exact Hv|]. split; lra.
    + intros B' HB' Hmask. apply rpm_options_In in HB' as (k' & Hk' & ->).
      apply rpm_mask_spec in Hmask as (v' & Hv' & Hge & Hlt). simpl in Hge, Hlt.
      rewrite Hv in Hv'. injection Hv' as <-.
      assert (H1 : (inject_Z k' < inject_Z (k + 1))%Q)
        by (rewrite inject_Z_plus; change (inject_Z 1) with 1%Q; lra).
      assert (H2 : (inject_Z k < inject_Z (k' + 1))%Q)
        by (rewrite inject_Z_plus; change (inject_Z 1) with 1%Q; lra).
      rewrite <- Zlt_Qlt in H1, H2. assert (k' = k) as -> by lia. reflexivity.
  - intros B HB Hmask. apply rpm_options_In in HB as (k & Hk & ->).
    apply rpm_mask_spec in Hmask as (v & Hv & Hge & Hlt). simpl in Hge, Hlt.
    exists v. split; [exact Hv|].
    assert (H0 : (inject_Z 0 <= inject_Z k)%Q) by (rewrite <- Zle_Qle; lia).
    assert (H34 : (inject_Z k <= inject_Z 34)%Q) by (rewrite <- Zle_Qle; lia).
    change (inject_Z 0) with 0%Q in H0. change (inject_Z 34) with 34%Q in H34.
    split; lra.
Qed.

Example sample_bins :
  rpm_mask (PyFloat (20 # 2)) {| id := 2; time := 0; data := Some (41 # 4)%Q |} = true
  /\ rpm_mask (PyFloat (21 # 2)) {| id := 2; time := 0; data := Some (41 # 4)%Q |} = false
  /\ rpm_mask (PyFloat (20 # 2)) {| id := 3; time := 0; data := Some (21 # 2)%Q |} = false
  /\ rpm_mask (PyFloat (34 # 2)) {| id := 9; time := 0; data := Some (35 # 2)%Q |} = false.
Proof. repeat split. Qed.

End StartupFacts.

(** ** More on the weekly heatmap *)
Module HeatmapFacts.
Import Py Calendar Frame Corruption CorruptionFacts CalendarRange.

Ltac Zify.zify_post_hook ::= Z.div_mod_to_equations.

(** *** Grouping *)

Lemma is_corrupted_bit (sensor : Channel * Sensor) (r : Row Timestamp (Columns Z)) :
  is_corrupted (with_columns sensor r) = 0 \/ is_corrupted (with_columns sensor r) = 1.
Proof.
  simpl. unfold flag_is_one. destruct (data r (fst sensor) (snd sensor)) as [f|]; [|auto].
  destruct (f =? 1); auto.
Qed.

Lemma sum_bits (l : list Z) :
  (forall b, In b l -> b = 0 \/ b = 1) -> 0 <= sum_Z l <= Z.of_nat (length l).
Proof.
  induction l as [|b l IH]; simpl; intros H; [lia|].
  destruct (H b (or_introl eq_refl)); specialize (IH (fun c Hc => H c (or_intror Hc))); lia.
Qed.

Lemma group_stats_keys (df : list YearRow) :
  map stat_week (group_stats df) = group_keys (map week df).
Proof. unfold group_stats. rewrite map_map. simpl. apply map_id. Qed.

(** X18.  Grouping the rows of a year by week gives one row of statistics
    for every week that occurs, in ascending order of the week; each counts
    at least one sample and between none and all of them as corrupted. *)
Theorem group_stats_weeks (m : FlagFrame) (year : Z) (sensor : Channel * Sensor) :
  let stats := group_stats (year_rows m year sensor) in
  StronglySorted Z.lt (map stat_week stats)
  /\ (forall w, In w (map stat_week stats)
                <-> exists r, In r m /\ dt_year (time r) = year /\ dt_week (time r) = w)
  /\ Forall (fun s => 1 <= stat_id s /\ 0 <= stat_is_corrupted s <= stat_id s
                      /\ stat_id s = week_total m year (stat_week s)
                      /\ stat_is_corrupted s = week_corrupted m year sensor (stat_week s))
            stats.
Proof.
  intros stats. subst stats.
  split; [rewrite group_stats_keys; apply group_keys_sorted|]. split.
  - intros w. rewrite group_stats_keys, group_keys_In. unfold year_rows.
    rewrite map_map. simpl. rewrite in_map_iff. split.
    + intros (r & Hw & Hr). apply filter_In in Hr as [Hr Hy]. apply Z.eqb_eq in Hy. eauto.
    + intros (r & Hr & Hy & Hw). exists r. split; [exact Hw|]. apply filter_In.
      split; [exact Hr | apply Z.eqb_eq; exact Hy].
  - apply List.Forall_forall. intros s Hs. unfold group_stats in Hs.
    apply in_map_iff in Hs as (w & <- & Hw). simpl.
    apply group_keys_In, week_in_keys in Hw.
    rewrite year_rows_week, length_map, corrupted_sum.
    fold (week_total m year w). fold (week_corrupted m year sensor w).
    pose proof (week_counts m year sensor w).
    assert (0 <= week_total m year w) by (unfold week_total; lia). repeat split; lia.
Qed.

(** *** Nothing is lost between the rows and the grid *)

Lemma sum_Z_add (f g : Z -> Z) (ws : list Z) :
  sum_Z (map (fun w => f w + g w) ws) = sum_Z (map f ws) + sum_Z (map g ws).
Proof. induction ws as [|w ws IH]; simpl; [reflexivity | rewrite IH; lia]. Qed.

Lemma sum_Z_ext (f g : Z -> Z) (ws : list Z) :
  (forall w, f w = g w) -> sum_Z (map f ws) = sum_Z (map g ws).
Proof. intros H. induction ws as [|w ws IH]; simpl; [reflexivity | rewrite H, IH; reflexivity]. Qed.

Lemma sum_indicator (k : Z) (ws : list Z) :
  List.NoDup ws -> In k ws -> sum_Z (map (fun w => if k =? w then 1 else 0) ws) = 1.
Proof.
  induction 1 as [|w ws Hnotin Hnd IH]; simpl; intros Hin; [destruct Hin|].
  destruct (Z.eqb_spec k w) as [->|Hne].
  - assert (Hzero : sum_Z (map (fun w0 => if w =? w0 then 1 else 0) ws) = 0).
    { clear -Hnotin. induction ws as [|a ws IH]; simpl; [reflexivity|].
      destruct (Z.eqb_spec w a) as [->|_]; [exfalso; apply Hnotin; left; reflexivity|].
      rewrite IH; [reflexivity|]. intros H. apply Hnotin. right. exact H. }
    lia.
  - destruct Hin as [->|Hin]; [contradiction|]. rewrite IH by exact Hin. lia.
Qed.

Lemma all_weeks_NoDup : List.NoDup all_weeks.
Proof. apply NoDup_ListNoDup, NoDup_seqZ. Qed.

Lemma all_weeks_In (w : Z) : In w all_weeks <-> 1 <= w <= 53.
Proof. unfold all_weeks. rewrite <- list_elem_of_In, elem_of_seqZ. lia. Qed.

(** The rows of the weeks 1 to 53 are all the rows of the year. *)
Lemma week_totals_sum (m : FlagFrame) (year : Z) :
  sum_Z (map (week_total m year) all_weeks)
  = Z.of_nat (length (List.filter (fun r => dt_year (time r) =? year) m)).
Proof.
  unfold week_total, week_rows. induction m as [|r m IH].
  - simpl. clear. induction all_weeks as [|w ws IH]; simpl; [reflexivity | exact IH].
  - simpl List.filter at 2. destruct (dt_year (time r) =? year) eqn:Hy.
    + erewrite sum_Z_ext.
      2: { intros w. simpl List.filter. rewrite Hy. simpl andb.
           instantiate (1 := fun w =>
             (if dt_week (time r) =? w then 1 else 0)
             + Z.of_nat (length (List.filter
                                   (fun r0 => (dt_year (time r0) =? year)
                                              && (dt_week (time r0) =? w)) m))).
           simpl. destruct (dt_week (time r) =? w); simpl length; lia. }
      rewrite sum_Z_add, IH, sum_indicator; [simpl length; lia | apply all_weeks_NoDup|].
      apply all_weeks_In, dt_week_range.
    + erewrite sum_Z_ext; [exact IH|]. intros w. simpl List.filter. rewrite Hy. reflexivity.
Qed.

Lemma week_corrupted_sum (m : FlagFrame) (year : Z) (sensor : Channel * Sensor) :
  sum_Z (map (week_corrupted m year sensor) all_weeks)
  = sum_Z (map is_corrupted (year_rows m year sensor)).
Proof.
  unfold year_rows. rewrite corrupted_sum.
  unfold week_corrupted, week_rows. induction m as [|r m IH].
  - simpl. clear. induction all_weeks as [|w ws IH]; simpl; [reflexivity | exact IH].
  - simpl List.filter at 3. destruct (dt_year (time r) =? year) eqn:Hy.
    + set (flag := match data r (fst sensor) (snd sensor) with
                   | Some f => f =? 1
                   | None => false
                   end).
      erewrite sum_Z_ext.
      2: { intros w. simpl List.filter. rewrite Hy. simpl andb.
           instantiate (1 := fun w =>
             (if dt_week (time r) =? w then (if flag then 1 else 0) else 0)
             + Z.of_nat (length (List.filter
                 (fun r0 => match data r0 (fst sensor) (snd sensor) with
                            | Some f => f =? 1
                            | None => false
                            end)
                 (List.filter (fun r0 => (dt_year (time r0) =? year)
                                         && (dt_week (time r0) =? w)) m)))).
           simpl. destruct (dt_week (time r) =? w); [|lia].
           simpl List.filter. fold flag. destruct flag; simpl length; lia. }
      rewrite sum_Z_add, IH. simpl List.filter. fold flag.
      assert (Hone : sum_Z (map (fun w => if dt_week (time r) =? w
                                          then (if flag then 1 else 0) else 0) all_weeks)
                     = if flag then 1 else 0).
      { destruct flag.
        - apply sum_indicator; [apply all_weeks_NoDup | apply all_weeks_In, dt_week_range].
        - clear. induction all_weeks as [|w ws IH]; simpl; [reflexivity|].
          rewrite IH. destruct (dt_week (time r) =? w); reflexivity. }
      rewrite Hone. destruct flag; simpl length; lia.
    + erewrite sum_Z_ext; [exact IH|]. intros w. simpl List.filter. rewrite Hy. reflexivity.
Qed.

(** X19.  Every row of the selected year has an ISO week from 1 to 53, so
    the left join on the weeks 1 to 53 loses none: the totals of the 53 rows
    of [weekly_stats] add up to the number of rows of that year, and their
    corrupted counts to the number of those rows that are flagged. *)
Theorem weekly_totals_add_up (m : FlagFrame) (year : Z) (sensor : Channel * Sensor) :
  let df_year := year_rows m year sensor in
  let stats := weekly_stats df_year in
  Forall (fun r => 1 <= week r <= 53) df_year
  /\ sum_Z (map stat_id stats) = Z.of_nat (length df_year)
  /\ sum_Z (map stat_is_corrupted stats) = sum_Z (map is_corrupted df_year).
Proof.
  intros df_year stats. subst df_year stats. split; [|split].
  - apply List.Forall_forall. intros r Hr. unfold year_rows in Hr.
    apply in_map_iff in Hr as (r0 & <- & _). simpl. apply dt_week_range.
  - rewrite weekly_stats_rows, map_map.
    rewrite (sum_Z_ext _ (week_total m year)) by reflexivity.
    rewrite week_totals_sum. unfold year_rows. rewrite length_map. reflexivity.
  - rewrite weekly_stats_rows, map_map.
    rewrite (sum_Z_ext _ (week_corrupted m year sensor)) by reflexivity.
    apply week_corrupted_sum.
Qed.


(** *** What the heatmap depends on *)

Lemma filter_length_perm {A : Type} (f : A -> bool) (l l' : list A) :
  Permutation l l' -> length (List.filter f l) = length (List.filter f l').
Proof.
  induction 1 as [|a l l' _ IH|a b l|l1 l2 l3 _ IH1 _ IH2]; simpl.
  - reflexivity.
  - destruct (f a); simpl; rewrite IH; reflexivity.
  - destruct (f a), (f b); reflexivity.
  - rewrite IH1. exact IH2.
Qed.

Lemma week_total_projected (m : FlagFrame) (year : Z) (sensor : Channel * Sensor) (w : Z) :
  week_total m year w
  = Z.of_nat (length (List.filter
                        (fun p : Timestamp * option Z => dt_week (fst p) =? w)
                        (map (fun r => (time r, data r (fst sensor) (snd sensor)))
                             (List.filter (fun r => dt_year (time r) =? year) m)))).
Proof.
  unfold week_total, week_rows. f_equal. rewrite filter_map_swap, length_map. simpl.
  induction m as [|r m IH]; simpl; [reflexivity|].
  destruct (dt_year (time r) =? year); simpl; [|exact IH].
  destruct (dt_week (time r) =? w); simpl; rewrite IH; reflexivity.
Qed.

Lemma week_corrupted_projected (m : FlagFrame) (year : Z) (sensor : Channel * Sensor)
      (w : Z) :
  week_corrupted m year sensor w
  = Z.of_nat (length (List.filter
                        (fun p : Timestamp * option Z =>
                           (dt_week (fst p) =? w)
                           && match snd p with Some f => f =? 1 | None => false end)
                        (map (fun r => (time r, data r (fst sensor) (snd sensor)))
                             (List.filter (fun r => dt_year (time r) =? year) m)))).
Proof.
  unfold week_corrupted, week_rows. f_equal. rewrite filter_map_swap, length_map. simpl.
  induction m as [|r m IH]; simpl; [reflexivity|].
  destruct (dt_year (time r) =? year); simpl; [|exact IH].
  destruct (dt_week (time r) =? w); simpl; [|exact IH].
  destruct (data r (fst sensor) (snd sensor)) as [f|]; [|exact IH].
  destruct (f =? 1); simpl; rewrite IH; reflexivity.
Qed.

Lemma heatmap_of_entries (m m' : FlagFrame) (year : Z) (sensor : Channel * Sensor) :
  (forall w, week_total m year w = week_total m' year w) ->
  (forall w, week_corrupted m year sensor w = week_corrupted m' year sensor w) ->
  update_heatmap m year sensor = update_heatmap m' year sensor.
Proof.
  intros Htotal Hcorrupted. unfold update_heatmap.
  rewrite !weekly_stats_rows.
  assert (Hentries : map (week_entry m year sensor) all_weeks
                     = map (week_entry m' year sensor) all_weeks).
  { apply map_ext. intros w. unfold week_entry, week_percentage.
    rewrite Htotal, Hcorrupted. reflexivity. }
  rewrite Hentries. reflexivity.
Qed.

(** X20.  The heatmap is a function of the timestamps and the selected
    column of the rows of the selected year, taken in any order: two frames
    that agree on these up to rearrangement give the same figure, whatever
    their identifiers, their other columns and their rows of other years. *)
Theorem heatmap_depends_on (m m' : FlagFrame) (year : Z) (sensor : Channel * Sensor) :
  Permutation
    (map (fun r => (time r, data r (fst sensor) (snd sensor)))
         (List.filter (fun r => dt_year (time r) =? year) m))
    (map (fun r => (time r, data r (fst sensor) (snd sensor)))
         (List.filter (fun r => dt_year (time r) =? year) m')) ->
  update_heatmap m year sensor = update_heatmap m' year sensor.
Proof.
  intros Hperm. apply heatmap_of_entries; intros w.
  - rewrite (week_total_projected m year sensor), (week_total_projected m' year sensor).
    f_equal. apply filter_length_perm. exact Hperm.
  - rewrite week_corrupted_projected, (week_corrupted_projected m').
    f_equal. apply filter_length_perm. exact Hperm.
Qed.

Lemma heatmap_depends_on_witness :
  update_heatmap Samples.joined_flags 2024 (ch1, s1)
  = update_heatmap (rev (List.filter (fun r => negb (id r =? 5)) Samples.joined_flags))
                   2024 (ch1, s1).
Proof.
  apply (heatmap_depends_on Samples.joined_flags
           (rev (List.filter (fun r => negb (id r =? 5)) Samples.joined_flags))
           2024 (ch1, s1)).
  apply (Permutation_rev
           (map (fun r : Row Timestamp (Columns Z) => (time r, data r ch1 s1))
                (List.filter (fun r => dt_year (time r) =? 2024) Samples.joined_flags))).
Defined.

(** *** A year without rows *)

Lemma no_rows_of_year (m : FlagFrame) (year w : Z) :
  ~ In year (years m) -> week_rows m year w = [].
Proof.
  intros Hnot. unfold week_rows. apply SeriesFacts.filter_none. intros r Hr.
  apply andb_false_iff. left. apply Z.eqb_neq. intros Hy. apply Hnot.
  unfold years. apply group_keys_In, in_map_iff. eauto.
Qed.

Lemma grid_in_range {A : Type} (m : Matrix A) (row col : nat) (v : A) :
  is_grid m -> mget row col m = Some v -> (row < 7)%nat /\ (col < 8)%nat.
Proof.
  intros [Hlen Hrows] Hget. unfold mget in Hget.
  destruct (m !! row) as [r|] eqn:Hr; [|discriminate].
  pose proof (lookup_lt_Some _ _ _ Hr) as Hrow.
  pose proof (lookup_lt_Some _ _ _ Hget) as Hcol.
  rewrite List.Forall_forall in Hrows.
  rewrite (Hrows r) in Hcol by (apply list_elem_of_In, list_elem_of_lookup; eauto).
  lia.
Qed.

Lemma heatmap_is_grid (m : FlagFrame) (year : Z) (sensor : Channel * Sensor) :
  is_grid (z (trace (update_heatmap m year sensor)))
  /\ is_grid (text (trace (update_heatmap m year sensor))).
Proof.
  destruct (heatmap_matrices m year sensor) as [-> ->]. apply loop_is_grid.
Qed.

Lemma heatmap_cell_cases (m : FlagFrame) (year : Z) (sensor : Channel * Sensor)
      (row col : nat) :
  (row < 7)%nat -> (col < 8)%nat ->
  (exists w, 1 <= w <= 53 /\ week_cell w = (row, col)
             /\ mget row col (z (trace (update_heatmap m year sensor)))
                = Some (week_percentage m year sensor w)
             /\ mget row col (text (trace (update_heatmap m year sensor)))
                = Some (Some (cell_text w (week_total m year w)
                                        (week_corrupted m year sensor w))))
  \/ (mget row col (z (trace (update_heatmap m year sensor))) = Some 0%Q
      /\ mget row col (text (trace (update_heatmap m year sensor))) = Some None).
Proof.
  intros Hrow Hcol. destruct (Nat.ltb_spec (8 * (6 - row) + col) 53) as [Hk|Hk].
  - left. exists (Z.of_nat (8 * (6 - row) + col) + 1).
    split; [lia|]. split; [apply week_cell_of_index; assumption|].
    apply (heatmap_written_cell m year sensor row col Hrow Hcol Hk).
  - right. destruct (heatmap_matrices m year sensor) as [-> ->]. unfold matrices.
    apply loop_unwritten_cell; (assumption || lia).
Qed.

(** X21.  For a year that the frame has no row of, every one of the 56
    cells of the grid has the value 0, and the cell of each week 1 to 53
    reads 0 total and 0 corrupted. *)
Theorem heatmap_of_empty_year (m : FlagFrame) (year : Z) (sensor : Channel * Sensor) :
  ~ In year (years m) ->
  let fig := update_heatmap m year sensor in
  (forall row col, (row < 7)%nat -> (col < 8)%nat ->
                   mget row col (z (trace fig)) = Some 0%Q)
  /\ (forall w, 1 <= w <= 53 ->
                mget (fst (week_cell w)) (snd (week_cell w)) (text (trace fig))
                = Some (Some (cell_text w 0 0))).
Proof.
  intros Hnot fig. subst fig.
  assert (Htotal : forall w, week_total m year w = 0).
  { intros w. unfold week_total. rewrite no_rows_of_year by exact Hnot. reflexivity. }
  assert (Hcorrupted : forall w, week_corrupted m year sensor w = 0).
  { intros w. unfold week_corrupted. rewrite no_rows_of_year by exact Hnot. reflexivity. }
  assert (Hpct : forall w, week_percentage m year sensor w = 0%Q).
  { intros w. unfold week_percentage. rewrite Htotal. reflexivity. }
  split.
  - intros row col Hrow Hcol.
    destruct (heatmap_cell_cases m year sensor row col Hrow Hcol)
      as [(w & _ & _ & Hz & _)|[Hz _]]; [rewrite Hz, Hpct; reflexivity | exact Hz].
  - intros w Hw. destruct (week_cell_index w Hw) as (Hrow & Hcol & Hindex).
    destruct (heatmap_cell_cases m year sensor _ _ Hrow Hcol)
      as [(w' & Hw' & Hcell & _ & Ht)|[_ Ht]].
    + assert (w' = w) as ->.
      { destruct (week_cell_index w' Hw') as (_ & _ & Hindex').
        rewrite Hcell in Hindex'. cbn [fst snd] in Hindex'. lia. }
      rewrite Ht, Htotal, Hcorrupted. reflexivity.
    + exfalso. assert (Hk : (8 * (6 - fst (week_cell w)) + snd (week_cell w) < 53)%nat) by lia.
      destruct (heatmap_written_cell m year sensor _ _ Hrow Hcol Hk) as [_ Ht'].
      rewrite Ht in Ht'. discriminate.
Qed.

Lemma heatmap_of_empty_year_witness :
  let fig := update_heatmap Samples.joined_flags 2023 (ch1, s1) in
  (forall row col, (row < 7)%nat -> (col < 8)%nat ->
                   mget row col (z (trace fig)) = Some 0%Q)
  /\ (forall w, 1 <= w <= 53 ->
                mget (fst (week_cell w)) (snd (week_cell w)) (text (trace fig))
                = Some (Some (cell_text w 0 0))).
Proof.
  apply (heatmap_of_empty_year Samples.joined_flags 2023 (ch1, s1)).
  vm_compute. intuition discriminate.
Defined.

(** X22.  Every cell of the grid, week or blank, has a value between
    [zmin] and [zmax], 0 and 100: no cell falls off the colour scale. *)
Theorem heatmap_values_on_scale (m : FlagFrame) (year : Z) (sensor : Channel * Sensor)
        (row col : nat) (v : Q) :
  let h := trace (update_heatmap m year sensor) in
  mget row col (z h) = Some v ->
  zmin h = 0%Q /\ zmax h = 100%Q /\ (zmin h <= v)%Q /\ (v <= zmax h)%Q.
Proof.
  intros h Hget. subst h. destruct (heatmap_scale m year sensor) as (Hmin & Hmax & _).
  rewrite Hmin, Hmax. split; [reflexivity|]. split; [reflexivity|].
  destruct (grid_in_range _ row col v (proj1 (heatmap_is_grid m year sensor)) Hget)
    as [Hrow Hcol].
  destruct (heatmap_cell_cases m year sensor row col Hrow Hcol)
    as [(w & _ & _ & Hz & _)|[Hz _]]; rewrite Hz in Hget; injection Hget as <-.
  - apply week_percentage_bounds.
  - split; unfold Qle; simpl; lia.
Qed.

Lemma heatmap_values_on_scale_witness :
  let h := trace (update_heatmap Samples.joined_flags 2024 (ch1, s1)) in
  zmin h = 0%Q /\ zmax h = 100%Q /\ (zmin h <= 200 # 3)%Q /\ (200 # 3 <= zmax h)%Q.
Proof.
  apply (heatmap_values_on_scale Samples.joined_flags 2024 (ch1, s1) 6 0 (200 # 3)%Q).
  vm_compute. reflexivity.
Defined.

End HeatmapFacts.
